(** * SEMS wallbox session client (sems_api.py): model and properties

    A shallow embedding of [SemsApi]: the login call, the status poll with
    its bounded re-authentication, and the two command calls.  Python values
    coming from JSON are a small inductive type, the object state and the
    outside world (requests sent, log records written) are threaded through
    a state-and-exception monad, and the vendor portal is a function from
    the history of requests to the answer of the next one. *)

From Stdlib Require Import ZArith List String Ascii Bool Lia.
Import ListNotations.

Set Warnings "-register-all".

Local Open Scope string_scope.
Local Open Scope Z_scope.

(** ** Python values *)

(** What [json.loads] produces and [json.dumps] accepts.  [JNull] is
    Python's [None]; numbers are the integers (floats are left out). *)
Inductive json : Type :=
| JNull
| JBool (b : bool)
| JNum (n : Z)
| JStr (s : string)
| JArr (items : list json)
| JObj (fields : list (string * json)).

(** The exceptions this module can meet, all subclasses of [Exception]. *)
Inductive exn : Type :=
| OutOfRetries                (* class OutOfRetries(HomeAssistantError) *)
| ConnectionError             (* requests.post: transport failure or timeout *)
| HTTPError (code : Z)        (* Response.raise_for_status *)
| JSONDecodeError             (* Response.json on a body that is not JSON *)
| KeyError (key : string)     (* d[k] on a dict without k *)
| TypeError                   (* subscripting something that is not a dict *)
| RecursionError.             (* a call beyond the interpreter's recursion limit *)

Inductive result (A : Type) : Type :=
| Ok (a : A)
| Err (e : exn).
Arguments Ok {A} a.
Arguments Err {A} e.

Definition is_none (v : json) : bool :=
  match v with JNull => true | _ => false end.

(** Python truthiness, as tested by [if chargePower:]. *)
Definition truthy (v : json) : bool :=
  match v with
  | JNull => false
  | JBool b => b
  | JNum n => negb (n =? 0)
  | JStr s => negb (String.eqb s EmptyString)
  | JArr l => match l with [] => false | _ => true end
  | JObj f => match f with [] => false | _ => true end
  end.

(** [v != "success"] for a string literal on the right. *)
Definition neq_str (v : json) (lit : string) : bool :=
  match v with
  | JStr s => negb (String.eqb s lit)
  | _ => true
  end.

Fixpoint assoc (k : string) (f : list (string * json)) : option json :=
  match f with
  | [] => None
  | (k', v) :: rest => if String.eqb k k' then Some v else assoc k rest
  end.

(** A dict keeps the position of a key that is assigned again and appends a
    new one. *)
Fixpoint assoc_set (k : string) (v : json) (f : list (string * json))
  : list (string * json) :=
  match f with
  | [] => [(k, v)]
  | (k', v') :: rest =>
      if String.eqb k k' then (k, v) :: rest else (k', v') :: assoc_set k v rest
  end.

(** [v[k]] *)
Definition getitem (v : json) (k : string) : result json :=
  match v with
  | JObj f => match assoc k f with
              | Some x => Ok x
              | None => Err (KeyError k)
              end
  | _ => Err TypeError
  end.

(** [v[k] = x], giving the updated object. *)
Definition setitem (v : json) (k : string) (x : json) : result json :=
  match v with
  | JObj f => Ok (JObj (assoc_set k x f))
  | _ => Err TypeError
  end.

(** ** Requests, responses, log records *)

Definition dq : string :=
  String (Ascii false true false false false true false false) EmptyString.

Inductive header_value : Type :=
| HStr (s : string)
| HDumps (v : json).          (* json.dumps(v) *)

Inductive payload : Type :=
| Data (s : string)           (* requests.post(..., data=s) *)
| Json (v : json).            (* requests.post(..., json=v) *)

Record request : Type := mkRequest {
  req_url : string;
  req_headers : list (string * header_value);
  req_body : payload;
  req_timeout : Z
}.

Record response : Type := mkResponse {
  status_code : Z;
  body : option json          (* None: the body does not decode as JSON *)
}.

(** What [requests.post] does: it raises, or it hands back a response. *)
Inductive net_result : Type :=
| Unreachable
| Replied (r : response).

(** The portal: the answer to a request, given the requests sent before. *)
Definition network : Type := list request -> request -> net_result.

Inductive level : Type := DEBUG | INFO | WARNING | ERROR.

Record log_record : Type := mkLog {
  log_level : level;
  log_msg : string;
  log_exc : option exn
}.

(** ** State *)

Record SemsApi : Type := mkSemsApi {
  _username : string;
  _password : string;
  _token : json
}.

Record world : Type := mkWorld {
  self : SemsApi;
  sent : list request;
  logged : list log_record
}.

Definition M (A : Type) : Type := world -> result A * world.

Definition ret {A} (a : A) : M A := fun w => (Ok a, w).

Definition bind {A B} (m : M A) (k : A -> M B) : M B :=
  fun w => match m w with
           | (Ok a, w') => k a w'
           | (Err e, w') => (Err e, w')
           end.

Definition raise {A} (e : exn) : M A := fun w => (Err e, w).

Definition try_except {A} (m : M A) (handler : exn -> M A) : M A :=
  fun w => match m w with
           | (Ok a, w') => (Ok a, w')
           | (Err e, w') => handler e w'
           end.

Definition lift {A} (r : result A) : M A := fun w => (r, w).

Notation "x <- m ;; k" := (bind m (fun x => k))
  (at level 61, m at next level, right associativity).
Notation "m ;; k" := (bind m (fun _ => k))
  (at level 61, right associativity).

Definition _LOGGER (l : level) (msg : string) (e : option exn) : M unit :=
  fun w => (Ok tt, mkWorld (self w) (sent w) (logged w ++ [mkLog l msg e])).

Definition get_token : M json := fun w => (Ok (_token (self w)), w).
Definition get_username : M string := fun w => (Ok (_username (self w)), w).
Definition get_password : M string := fun w => (Ok (_password (self w)), w).

Definition set_token (t : json) : M unit :=
  fun w => (Ok tt,
            mkWorld (mkSemsApi (_username (self w)) (_password (self w)) t)
                    (sent w) (logged w)).

(** ** Module constants *)

Definition _LoginURL := "https://www.semsportal.com/api/v2/Common/CrossLogin".
Definition _WallboxURL :=
  "https://www.semsportal.com/api/v3/EvCharger/GetCurrentChargeinfo".
Definition _SetChargeModeURL :=
  "https://www.semsportal.com/api/v3/EvCharger/SetChargeMode".
Definition _PowerControlURL :=
  "https://www.semsportal.com/api/v3/EvCharger/Charging".

Definition _RequestTimeout : Z := 30.

Definition _DefaultHeaders : list (string * header_value) :=
  [ ("Content-Type", HStr "application/json");
    ("Accept", HStr "application/json");
    ("token", HStr ("{" ++ dq ++ "version" ++ dq ++ ":" ++ dq ++ dq ++ ","
                    ++ dq ++ "client" ++ dq ++ ":" ++ dq ++ "ios" ++ dq ++ ","
                    ++ dq ++ "language" ++ dq ++ ":" ++ dq ++ "en" ++ dq ++ "}")) ].

(** The headers built before each authenticated call. *)
Definition token_headers (tok : json) : list (string * header_value) :=
  [ ("Content-Type", HStr "application/json");
    ("Accept", HStr "application/json");
    ("token", HDumps tok) ].

Section Client.

(** The portal the client talks to and Python's [str] on a value. *)
Variable net : network.
Variable py_str : json -> string.

(** [requests.post]: the request is recorded, then the portal answers. *)
Definition requests_post (url : string) (headers : list (string * header_value))
    (b : payload) (timeout : Z) : M response :=
  fun w =>
    let r := mkRequest url headers b timeout in
    let w' := mkWorld (self w) (sent w ++ [r]) (logged w) in
    match net (sent w) r with
    | Unreachable => (Err ConnectionError, w')
    | Replied resp => (Ok resp, w')
    end.

(** [Response.raise_for_status]: 4xx and 5xx raise. *)
Definition raise_for_status (r : response) : M unit :=
  if (400 <=? status_code r) && (status_code r <? 600)
  then raise (HTTPError (status_code r))
  else ret tt.

(** [Response.json] *)
Definition response_json (r : response) : M json :=
  match body r with
  | Some j => ret j
  | None => raise JSONDecodeError
  end.

(** ** SemsApi.getLoginToken *)

Definition login_data (userName password : string) : string :=
  "{" ++ dq ++ "account" ++ dq ++ ":" ++ dq ++ userName ++ dq ++ ","
      ++ dq ++ "pwd" ++ dq ++ ":" ++ dq ++ password ++ dq ++ " }".

Definition getLoginToken (userName password : string) : M json :=
  try_except
    (_LOGGER DEBUG "SEMS - Getting API token" None ;;
     login_response <-
       requests_post _LoginURL _DefaultHeaders
                     (Data (login_data userName password)) _RequestTimeout ;;
     _LOGGER DEBUG "Login Response: %s" None ;;
     raise_for_status login_response ;;
     jsonResponse <- response_json login_response ;;
     _LOGGER DEBUG "Login JSON response %s" None ;;
     tokenDict <- lift (getitem jsonResponse "data") ;;
     api <- lift (getitem jsonResponse "api") ;;
     tokenDict <- lift (setitem tokenDict "api" api) ;;
     _LOGGER DEBUG "SEMS - API Token received: %s" None ;;
     ret tokenDict)
    (fun exception =>
       _LOGGER ERROR "Unable to fetch login token from SEMS API. %s"
               (Some exception) ;;
       ret JNull).

(** ** SemsApi.test_authentication *)

(** The handler concatenates a string and an exception object, which is
    itself a [TypeError]. *)
Definition test_authentication : M bool :=
  try_except
    (u <- get_username ;;
     p <- get_password ;;
     t <- getLoginToken u p ;;
     set_token t ;;
     tok <- get_token ;;
     ret (negb (is_none tok)))
    (fun exception => raise TypeError).

(** ** The token preamble shared by the three calls

    [if self._token is None or renewToken: ... self._token = getLoginToken(...)],
    written out three times in the source. *)
Definition acquire_token (renewToken : bool) : M unit :=
  tok <- get_token ;;
  if is_none tok || renewToken then
    _LOGGER DEBUG "API token not set (%s) or new token requested (%s), fetching"
            None ;;
    u <- get_username ;;
    p <- get_password ;;
    t <- getLoginToken u p ;;
    set_token t
  else ret tt.

(** [if maxTokenRetries <= 0: ... raise OutOfRetries] *)
Definition check_retries (maxTokenRetries : Z) : M unit :=
  if maxTokenRetries <=? 0 then
    _LOGGER INFO "SEMS - Maximum token fetch tries reached, aborting for now"
            None ;;
    raise OutOfRetries
  else ret tt.

(** ** SemsApi.getData *)

Definition status_data (powerStationId : string) : string :=
  "{" ++ dq ++ "sn" ++ dq ++ ":" ++ dq ++ powerStationId ++ dq ++ "}".

(** [jsonResponse["msg"] != "success" or jsonResponse["data"] is None] *)
Definition query_failed (jsonResponse : json) : result bool :=
  match getitem jsonResponse "msg" with
  | Err e => Err e
  | Ok msg =>
      if neq_str msg "success" then Ok true
      else match getitem jsonResponse "data" with
           | Err e => Err e
           | Ok d => Ok (is_none d)
           end
  end.

(** The [try] block of [getData], with the recursive call as a parameter. *)
Definition getData_try (getData : string -> bool -> Z -> M json)
    (powerStationId : string) (renewToken : bool) (maxTokenRetries : Z)
  : M json :=
  _LOGGER DEBUG "SEMS - Making EV Charger Status API Call" None ;;
  check_retries maxTokenRetries ;;
  acquire_token renewToken ;;
  tok <- get_token ;;
  let headers := token_headers tok in
  _LOGGER DEBUG "Querying SEMS API (%s) for EV Charger Serial No: %s" None ;;
  let data := status_data powerStationId in
  response <- requests_post _WallboxURL headers (Data data) _RequestTimeout ;;
  jsonResponse <- response_json response ;;
  failed <- lift (query_failed jsonResponse) ;;
  if (failed : bool) then
    _LOGGER DEBUG
      "Query not successful (%s), retrying with new token, %s retries remaining"
      None ;;
    getData powerStationId true (maxTokenRetries - 1)
  else
    lift (getitem jsonResponse "data").

(** The [except] clause of [getData]: the method then falls off its end and
    returns [None]. *)
Definition fetch_handler (exception : exn) : M json :=
  _LOGGER ERROR "Unable to fetch data from SEMS. %s" (Some exception) ;;
  ret JNull.

Definition getData_body (getData : string -> bool -> Z -> M json)
    (powerStationId : string) (renewToken : bool) (maxTokenRetries : Z)
  : M json :=
  try_except (getData_try getData powerStationId renewToken maxTokenRetries)
             fetch_handler.

(** [getData] calls itself once for every refusal.  The interpreter lets
    only so many calls be nested: [depth] is the number of further calls of
    [getData] that still fit inside this one before the recursion limit is
    reached.  The call that would go beyond raises [RecursionError] into the
    [try] block of its caller.  (Where the limit strikes inside the last
    call depends on the frames that logging and the HTTP library need; here
    the last call runs in full and its recursive call is the one refused.) *)
Fixpoint getData_rec (depth : nat) (powerStationId : string)
    (renewToken : bool) (maxTokenRetries : Z) : M json :=
  match depth with
  | O =>
      getData_body (fun _ _ _ => raise RecursionError)
                   powerStationId renewToken maxTokenRetries
  | S d =>
      getData_body (getData_rec d) powerStationId renewToken maxTokenRetries
  end.

Definition getData (depth : nat) (powerStationId : string) (renewToken : bool)
    (maxTokenRetries : Z) : M json :=
  getData_rec depth powerStationId renewToken maxTokenRetries.

(** What the call at line 139 runs, seen from a call with [depth] left. *)
Definition recursive_call (depth : nat) : string -> bool -> Z -> M json :=
  match depth with
  | O => fun _ _ _ => raise RecursionError
  | S d => getData d
  end.

(** ** SemsApi.change_status *)

Definition change_status (inverterSn status : json) (renewToken : bool)
    (maxTokenRetries : Z) : M unit :=
  try_except
    (_LOGGER DEBUG "SEMS - Making Wallbox Status API Call" None ;;
     check_retries maxTokenRetries ;;
     acquire_token renewToken ;;
     tok <- get_token ;;
     let headers := token_headers tok in
     let powerControlURL := _PowerControlURL in
     _LOGGER DEBUG
       "Sending power control command (%s) for power station id: %s" None ;;
     let data := JObj [ ("sn", inverterSn); ("status", JStr (py_str status)) ] in
     response <- requests_post powerControlURL headers (Json data)
                               _RequestTimeout ;;
     if negb (status_code response =? 200) then
       _LOGGER WARNING
         "Power control command not successful, retrying with new token, %s retries remaining"
         None ;;
       ret tt
     else ret tt)
    (fun exception =>
       _LOGGER ERROR "Unable to execute Power control command. %s"
               (Some exception) ;;
       ret tt).

(** ** SemsApi.set_charge_mode *)

Definition charge_mode_data (wallboxSn mode chargePower : json) : json :=
  if truthy chargePower then
    JObj [ ("sn", wallboxSn); ("type", mode); ("charge_power", chargePower) ]
  else
    JObj [ ("sn", wallboxSn); ("type", mode) ].

Definition set_charge_mode (wallboxSn mode chargePower : json)
    (renewToken : bool) (maxTokenRetries : Z) : M unit :=
  try_except
    (_LOGGER DEBUG "SEMS - Making EV Charger SetChargeMode API Call" None ;;
     check_retries maxTokenRetries ;;
     acquire_token renewToken ;;
     tok <- get_token ;;
     let headers := token_headers tok in
     let setChargeModeURL := _SetChargeModeURL in
     _LOGGER DEBUG
       "Sending SetChargeMode command (%s) for wallbox SN: %s mode: %s chargepower: %s"
       None ;;
     let data := charge_mode_data wallboxSn mode chargePower in
     response <- requests_post setChargeModeURL headers (Json data)
                               _RequestTimeout ;;
     if negb (status_code response =? 200) then
       _LOGGER DEBUG
         "SetChargeMode command not successful, retrying with new token, %s retries remaining"
         None ;;
       ret tt
     else ret tt)
    (fun exception =>
       _LOGGER ERROR "Unable to execute SetChargeMode command. %s"
               (Some exception) ;;
       ret tt).

End Client.

(** ** The requests each call sends *)

Definition login_request (userName password : string) : request :=
  mkRequest _LoginURL _DefaultHeaders (Data (login_data userName password))
            _RequestTimeout.

Definition status_request (powerStationId : string) (tok : json) : request :=
  mkRequest _WallboxURL (token_headers tok) (Data (status_data powerStationId))
            _RequestTimeout.

Definition power_request (py_str : json -> string) (inverterSn status tok : json)
  : request :=
  mkRequest _PowerControlURL (token_headers tok)
            (Json (JObj [ ("sn", inverterSn); ("status", JStr (py_str status)) ]))
            _RequestTimeout.

Definition charge_request (wallboxSn mode chargePower tok : json) : request :=
  mkRequest _SetChargeModeURL (token_headers tok)
            (Json (charge_mode_data wallboxSn mode chargePower))
            _RequestTimeout.

(** ** What a login yields, as a function of the portal's answer

    [login_outcome] follows the [try] block of [getLoginToken] step by step;
    [login_token] and [login_log] add what the [except] clause does.
    [getLoginToken_run] below proves that this is what the method computes. *)

Definition http_error (r : response) : bool :=
  (400 <=? status_code r) && (status_code r <? 600).

Definition login_outcome (a : net_result) : result json :=
  match a with
  | Unreachable => Err ConnectionError
  | Replied r =>
      if http_error r then Err (HTTPError (status_code r))
      else match body r with
           | None => Err JSONDecodeError
           | Some j =>
               match getitem j "data" with
               | Err e => Err e
               | Ok d => match getitem j "api" with
                         | Err e => Err e
                         | Ok api => setitem d "api" api
                         end
               end
           end
  end.

Definition login_token (a : net_result) : json :=
  match login_outcome a with
  | Ok t => t
  | Err _ => JNull
  end.

Definition login_error (e : exn) : log_record :=
  mkLog ERROR "Unable to fetch login token from SEMS API. %s" (Some e).

Definition login_log (a : net_result) : list log_record :=
  mkLog DEBUG "SEMS - Getting API token" None ::
  match a with
  | Unreachable => [login_error ConnectionError]
  | Replied r =>
      mkLog DEBUG "Login Response: %s" None ::
      if http_error r then [login_error (HTTPError (status_code r))]
      else match body r with
           | None => [login_error JSONDecodeError]
           | Some j =>
               mkLog DEBUG "Login JSON response %s" None ::
               match login_outcome a with
               | Err e => [login_error e]
               | Ok _ => [mkLog DEBUG "SEMS - API Token received: %s" None]
               end
           end
  end.

(** The login is refused: no connection, a 4xx or 5xx status, a body that is
    not JSON, or a body without a ["data"] object or without ["api"]. *)
Definition login_fails (a : net_result) : bool :=
  match a with
  | Unreachable => true
  | Replied r =>
      http_error r ||
      match body r with
      | None => true
      | Some j =>
          match getitem j "data", getitem j "api" with
          | Ok (JObj _), Ok _ => false
          | _, _ => true
          end
      end
  end.

(** The world after the token preamble. *)
Definition acquired (net : network) (renewToken : bool) (w : world) : world :=
  if is_none (_token (self w)) || renewToken then
    let a := net (sent w) (login_request (_username (self w)) (_password (self w))) in
    mkWorld (mkSemsApi (_username (self w)) (_password (self w)) (login_token a))
            (sent w ++ [login_request (_username (self w)) (_password (self w))])
            ((logged w ++
              [mkLog DEBUG
                 "API token not set (%s) or new token requested (%s), fetching"
                 None]) ++ login_log a)
  else w.

Definition add_log (w : world) (l : list log_record) : world :=
  mkWorld (self w) (sent w) (logged w ++ l).

Definition add_sent (w : world) (r : request) : world :=
  mkWorld (self w) (sent w ++ [r]) (logged w).

(** How many status requests a history holds. *)
Definition is_status (r : request) : bool := String.eqb (req_url r) _WallboxURL.

Definition status_calls (h : list request) : nat :=
  List.length (List.filter is_status h).

(** The addresses of one attempt after another: a login, then the status
    request. *)
Fixpoint retry_urls (k : nat) : list string :=
  match k with
  | O => []
  | S k' => _LoginURL :: _WallboxURL :: retry_urls k'
  end.

Definition first_urls (login : bool) : list string :=
  if login then [_LoginURL; _WallboxURL] else [_WallboxURL].

(** ** Log records of the three calls *)

Definition status_call_log : log_record :=
  mkLog DEBUG "SEMS - Making EV Charger Status API Call" None.
Definition retries_log : log_record :=
  mkLog INFO "SEMS - Maximum token fetch tries reached, aborting for now" None.
Definition query_log : log_record :=
  mkLog DEBUG "Querying SEMS API (%s) for EV Charger Serial No: %s" None.
Definition retry_log : log_record :=
  mkLog DEBUG
    "Query not successful (%s), retrying with new token, %s retries remaining"
    None.
Definition fetch_error (e : exn) : log_record :=
  mkLog ERROR "Unable to fetch data from SEMS. %s" (Some e).

Definition power_call_log : log_record :=
  mkLog DEBUG "SEMS - Making Wallbox Status API Call" None.
Definition power_send_log : log_record :=
  mkLog DEBUG "Sending power control command (%s) for power station id: %s" None.
Definition power_warning : log_record :=
  mkLog WARNING
    "Power control command not successful, retrying with new token, %s retries remaining"
    None.
Definition power_error (e : exn) : log_record :=
  mkLog ERROR "Unable to execute Power control command. %s" (Some e).

Definition charge_call_log : log_record :=
  mkLog DEBUG "SEMS - Making EV Charger SetChargeMode API Call" None.
Definition charge_send_log : log_record :=
  mkLog DEBUG
    "Sending SetChargeMode command (%s) for wallbox SN: %s mode: %s chargepower: %s"
    None.
Definition charge_debug : log_record :=
  mkLog DEBUG
    "SetChargeMode command not successful, retrying with new token, %s retries remaining"
    None.
Definition charge_error (e : exn) : log_record :=
  mkLog ERROR "Unable to execute SetChargeMode command. %s" (Some e).

(** Whether the preamble logs in, and the request it then sends. *)
Definition needs_login (w : world) (renewToken : bool) : bool :=
  is_none (_token (self w)) || renewToken.

Definition login_of (w : world) : request :=
  login_request (_username (self w)) (_password (self w)).

(** The requests a call added to the history. *)
Definition new_requests (before after : world) : list request :=
  skipn (List.length (sent before)) (sent after).

(** ** Portal behaviours *)

(** The status endpoint answers with a body the client takes as a refusal of
    its token. *)
Definition soft_refusal (a : net_result) : Prop :=
  exists r j, a = Replied r /\ body r = Some j /\ query_failed j = Ok true.

(** The status endpoint answers with a body whose ["msg"] is not
    ["success"]. *)
Definition msg_not_success (a : net_result) : Prop :=
  exists r j m, a = Replied r /\ body r = Some j /\
                getitem j "msg" = Ok m /\ neq_str m "success" = true.

(** The status endpoint answers ["success"] with the payload [d]. *)
Definition good_answer (d : json) (a : net_result) : Prop :=
  exists r j, a = Replied r /\ body r = Some j /\
              getitem j "msg" = Ok (JStr "success") /\
              getitem j "data" = Ok d /\ d <> JNull.

(** ** Sample portals and clients *)

Definition sample_token : json :=
  JObj [ ("uid", JStr "d828fb31"); ("timestamp", JNum 1718757570161);
         ("token", JStr "6578cf43"); ("client", JStr "ios");
         ("version", JStr EmptyString); ("language", JStr "en") ].

Definition login_reply : response :=
  mkResponse 200
    (Some (JObj [ ("data", sample_token);
                  ("api", JStr "https://eu.semsportal.com/api/") ])).

Definition refusal_reply : response :=
  mkResponse 200 (Some (JObj [ ("msg", JStr "fail"); ("data", JNull) ])).

Definition status_reply (d : json) : response :=
  mkResponse 200 (Some (JObj [ ("msg", JStr "success"); ("data", d) ])).

(** No connection at all. *)
Definition offline : network := fun _ _ => Unreachable.

(** Logins work; the status endpoint refuses the first [refusals] requests
    and then answers with [d]; commands are accepted. *)
Definition portal (refusals : nat) (d : json) : network :=
  fun h r =>
    if String.eqb (req_url r) _LoginURL then Replied login_reply
    else if is_status r then
      if (refusals <=? status_calls h)%nat then Replied (status_reply d)
      else Replied refusal_reply
    else Replied (mkResponse 200 None).

(** Logins work, every status request is refused, commands do not get
    through. *)
Definition stale_portal : network :=
  fun h r =>
    if String.eqb (req_url r) _LoginURL then Replied login_reply
    else if is_status r then Replied refusal_reply
    else Unreachable.


(** The login endpoint answers with a status that is neither 2xx nor an
    error for [raise_for_status]. *)
Definition multiple_choices : network :=
  fun _ _ => Replied (mkResponse 300 (body login_reply)).

(** The portal only takes a token that carries its ["api"] address, as the
    tokens [getLoginToken] returns do. *)
Definition picky_portal (d : json) : network :=
  fun h r =>
    if String.eqb (req_url r) _LoginURL then Replied login_reply
    else
      match req_headers r with
      | [_; _; (_, HDumps tok)] =>
          match getitem tok "api" with
          | Ok _ => Replied (status_reply d)
          | Err _ => Replied refusal_reply
          end
      | _ => Replied refusal_reply
      end.

(** A room for nested calls of the order CPython's default recursion limit
    of 1000 leaves. *)
Definition usual_depth : nat := 982.

(** A client right after [__init__], and one that holds a token. *)
Definition fresh_client : world :=
  mkWorld (mkSemsApi "user@example.org" "secret" JNull) [] [].

Definition logged_in_client : world :=
  mkWorld (mkSemsApi "user@example.org" "secret" sample_token) [] [].

Definition sample_str (v : json) : string :=
  match v with
  | JStr s => s
  | JNum 1 => "1"
  | _ => "0"
  end.

(** ** SemsApi.__init__ *)

(** The credentials are kept and no token is held ([hass] plays no part in
    what follows). *)
Definition __init__ (username password : string) : SemsApi :=
  mkSemsApi username password JNull.

(** ** One status attempt

    What [getData] makes of the portal's answer to its status request: an
    exception for its handler, a refusal that sends it round again, or the
    payload to return. *)
Inductive attempt : Type :=
| Failed (e : exn)
| Refused
| Answered (d : json).

Definition attempt_of (a : net_result) : attempt :=
  match a with
  | Unreachable => Failed ConnectionError
  | Replied r =>
      match body r with
      | None => Failed JSONDecodeError
      | Some j =>
          match query_failed j with
          | Err e => Failed e
          | Ok true => Refused
          | Ok false =>
              match getitem j "data" with
              | Ok d => Answered d
              | Err e => Failed e
              end
          end
      end
  end.

(** The status request of attempt [k] of a call started in [w] (counting
    from 0), with the history it is sent after, when the attempts before it
    were refused: each refusal is followed by the preamble with [renewToken]
    set. *)
Fixpoint attempt_request (net : network) (k : nat) (powerStationId : string)
    (renewToken : bool) (w : world) : list request * request :=
  let w1 := acquired net renewToken (add_log w [status_call_log]) in
  let req := status_request powerStationId (_token (self w1)) in
  match k with
  | O => (sent w1, req)
  | S k' =>
      attempt_request net k' powerStationId true
                      (add_log (add_log (add_sent w1 req) [query_log])
                               [retry_log])
  end.

(** What the portal answers to it. *)
Definition attempt_answer (net : network) (k : nat) (powerStationId : string)
    (renewToken : bool) (w : world) : net_result :=
  net (fst (attempt_request net k powerStationId renewToken w))
      (snd (attempt_request net k powerStationId renewToken w)).

(** The requests of a first attempt: the login if one is due, then the
    status request. *)
Definition first_requests (w : world) (renewToken : bool) (req : request)
  : list request :=
  ((if needs_login w renewToken then [login_of w] else []) ++ [req])%list.

(** How many login requests a history holds. *)
Definition is_login (r : request) : bool := String.eqb (req_url r) _LoginURL.

Definition login_calls (h : list request) : nat :=
  List.length (List.filter is_login h).

(** Whether a string holds a double quote. *)
Definition dquote : ascii := Ascii false true false false false true false false.

Fixpoint has_dquote (s : string) : bool :=
  match s with
  | EmptyString => false
  | String c rest => Ascii.eqb c dquote || has_dquote rest
  end.

(** The credentials of the client are those it had before. *)
Definition same_credentials (before after : world) : Prop :=
  _username (self after) = _username (self before) /\
  _password (self after) = _password (self before).

(** * Properties *)

Ltac run :=
  cbv beta iota zeta delta
    [bind ret raise try_except lift _LOGGER get_token get_username get_password
     set_token requests_post raise_for_status response_json check_retries
     add_log add_sent negb];
  cbn [self sent logged _token _username _password].

Ltac done_run :=
  run; rewrite <- ?app_assoc; cbn [app]; reflexivity.

Section Properties.

Variable net : network.
Variable py_str : json -> string.

(** [getLoginToken] always returns: the token on success, [None] otherwise.
    It sends one request and never writes [self]. *)
Lemma getLoginToken_run userName password w :
  getLoginToken net userName password w =
  (Ok (login_token (net (sent w) (login_request userName password))),
   mkWorld (self w)
           (sent w ++ [login_request userName password])
           (logged w ++ login_log (net (sent w) (login_request userName password)))).
Proof.
  unfold getLoginToken, login_token, login_log, login_outcome.
  run. fold (login_request userName password).
  destruct (net (sent w) (login_request userName password)) as [|r];
    [done_run|].
  unfold http_error.
  destruct ((400 <=? status_code r) && (status_code r <? 600)); [done_run|].
  run. destruct (body r) as [j|]; [|done_run].
  run. destruct (getitem j "data") as [d|e]; [|done_run].
  destruct (getitem j "api") as [a|e]; [|done_run].
  destruct (setitem d "api" a) as [t|e]; done_run.
Qed.

Lemma acquire_token_run renewToken w :
  acquire_token net renewToken w = (Ok tt, acquired net renewToken w).
Proof.
  unfold acquire_token, acquired. run.
  destruct (is_none (_token (self w)) || renewToken); [|reflexivity].
  run. rewrite getLoginToken_run. done_run.
Qed.

(** With the budget used up nothing is sent: the exception raised by the
    check is caught by the method's own handler. *)
Lemma getData_body_exhausted f powerStationId renewToken maxTokenRetries w :
  maxTokenRetries <= 0 ->
  getData_body net f powerStationId renewToken maxTokenRetries w =
  (Ok JNull,
   add_log w [status_call_log; retries_log; fetch_error OutOfRetries]).
Proof.
  intros H. apply Z.leb_le in H.
  unfold getData_body, getData_try, fetch_handler. run. rewrite H. done_run.
Qed.

(** One attempt with budget left, case by case on the portal's answer. *)
Lemma getData_body_run f powerStationId renewToken maxTokenRetries w :
  0 < maxTokenRetries ->
  let w1 := acquired net renewToken (add_log w [status_call_log]) in
  let req := status_request powerStationId (_token (self w1)) in
  let w2 := add_log (add_sent w1 req) [query_log] in
  getData_body net f powerStationId renewToken maxTokenRetries w =
  match net (sent w1) req with
  | Unreachable => (Ok JNull, add_log w2 [fetch_error ConnectionError])
  | Replied r =>
      match body r with
      | None => (Ok JNull, add_log w2 [fetch_error JSONDecodeError])
      | Some j =>
          match query_failed j with
          | Err e => (Ok JNull, add_log w2 [fetch_error e])
          | Ok true =>
              try_except (f powerStationId true (maxTokenRetries - 1))
                         fetch_handler (add_log w2 [retry_log])
          | Ok false =>
              match getitem j "data" with
              | Ok d => (Ok d, w2)
              | Err e => (Ok JNull, add_log w2 [fetch_error e])
              end
          end
      end
  end.
Proof.
  intros H. apply Z.leb_gt in H.
  unfold getData_body, getData_try, fetch_handler, status_request.
  run. rewrite H. run.
  rewrite acquire_token_run. run.
  set (w1 := acquired net renewToken _).
  destruct (net (sent w1) _) as [|r]; [done_run|].
  run. destruct (body r) as [j|]; [|done_run].
  run. destruct (query_failed j) as [[|]|e]; [| |done_run].
  - run. rewrite <- ?app_assoc; cbn [app]. reflexivity.
  - destruct (getitem j "data"); done_run.
Qed.

Lemma getData_body_returns f powerStationId renewToken maxTokenRetries w :
  exists v w',
    getData_body net f powerStationId renewToken maxTokenRetries w = (Ok v, w').
Proof.
  unfold getData_body, try_except.
  match goal with |- context [match ?m w with _ => _ end] =>
    destruct (m w) as [[a|e] w'] end.
  - eauto.
  - unfold fetch_handler. run. eauto.
Qed.

(** [getData] satisfies the recursive equation of the source, with the
    recursive call cut off where the depth is used up. *)
Lemma getData_unfold depth powerStationId renewToken maxTokenRetries w :
  getData net depth powerStationId renewToken maxTokenRetries w =
  getData_body net (recursive_call net depth)
               powerStationId renewToken maxTokenRetries w.
Proof. destruct depth; reflexivity. Qed.

Lemma getData_returns depth powerStationId renewToken maxTokenRetries w :
  exists v w',
    getData net depth powerStationId renewToken maxTokenRetries w = (Ok v, w').
Proof. rewrite getData_unfold. apply getData_body_returns. Qed.

Lemma getData_exhausted depth powerStationId renewToken maxTokenRetries w :
  maxTokenRetries <= 0 ->
  getData net depth powerStationId renewToken maxTokenRetries w =
  (Ok JNull,
   add_log w [status_call_log; retries_log; fetch_error OutOfRetries]).
Proof.
  intros H. rewrite getData_unfold. apply getData_body_exhausted, H.
Qed.

(** One call with budget left, by what the attempt comes to. *)
Lemma getData_step depth powerStationId renewToken maxTokenRetries w :
  0 < maxTokenRetries ->
  let w1 := acquired net renewToken (add_log w [status_call_log]) in
  let req := status_request powerStationId (_token (self w1)) in
  let w2 := add_log (add_sent w1 req) [query_log] in
  getData net depth powerStationId renewToken maxTokenRetries w =
  match attempt_of (net (sent w1) req) with
  | Failed e => (Ok JNull, add_log w2 [fetch_error e])
  | Refused =>
      match depth with
      | O =>
          (Ok JNull,
           add_log (add_log w2 [retry_log]) [fetch_error RecursionError])
      | S d =>
          getData net d powerStationId true (maxTokenRetries - 1)
                  (add_log w2 [retry_log])
      end
  | Answered d => (Ok d, w2)
  end.
Proof.
  intros H. rewrite getData_unfold, getData_body_run by assumption. cbv zeta.
  unfold attempt_of.
  destruct (net _ _) as [|r]; [reflexivity|].
  destruct (body r) as [j|]; [|reflexivity].
  destruct (query_failed j) as [[|]|e];
    [|destruct (getitem j "data"); reflexivity|reflexivity].
  unfold try_except. destruct depth as [|d]; cbn [recursive_call].
  - unfold fetch_handler. done_run.
  - match goal with |- context [getData net ?a ?b ?c ?d ?e] =>
      destruct (getData_returns a b c d e) as (v & w' & E) end.
    rewrite E. reflexivity.
Qed.

Lemma attempt_refused a : attempt_of a = Refused <-> soft_refusal a.
Proof.
  unfold attempt_of, soft_refusal. split.
  - destruct a as [|r]; [discriminate|].
    destruct (body r) as [j|] eqn:Hb; [|discriminate].
    destruct (query_failed j) as [[|]|e] eqn:Hq; try discriminate.
    + intros _. exists r, j. auto.
    + destruct (getitem j "data"); discriminate.
  - intros (r & j & Ha & Hb & Hq). subst a. rewrite Hb, Hq. reflexivity.
Qed.

Lemma attempt_answered a d : attempt_of a = Answered d <-> good_answer d a.
Proof.
  unfold attempt_of, good_answer, query_failed. split.
  - destruct a as [|r]; [discriminate|].
    destruct (body r) as [j|] eqn:Hb; [|discriminate].
    destruct (getitem j "msg") as [m|e] eqn:Hm; [|discriminate].
    destruct m; cbn [neq_str]; try discriminate.
    destruct (String.eqb s "success") eqn:Es; cbn [negb]; [|discriminate].
    apply String.eqb_eq in Es. subst s.
    destruct (getitem j "data") as [d'|e] eqn:Hd; [|discriminate].
    destruct d'; cbn [is_none]; try discriminate;
      intros E; injection E as E; subst d;
      exists r, j; repeat split; (assumption || discriminate).
  - intros (r & j & Ha & Hb & Hm & Hd & Hn). subst a.
    rewrite Hb, Hm, Hd. cbn. destruct d; try reflexivity. congruence.
Qed.

(** ** The two commands *)

Lemma change_status_exhausted inverterSn status renewToken maxTokenRetries w :
  maxTokenRetries <= 0 ->
  change_status net py_str inverterSn status renewToken maxTokenRetries w =
  (Ok tt, add_log w [power_call_log; retries_log; power_error OutOfRetries]).
Proof.
  intros H. apply Z.leb_le in H.
  unfold change_status. run. rewrite H. done_run.
Qed.

Lemma change_status_run inverterSn status renewToken maxTokenRetries w :
  0 < maxTokenRetries ->
  let w1 := acquired net renewToken (add_log w [power_call_log]) in
  let req := power_request py_str inverterSn status (_token (self w1)) in
  let w2 := add_log (add_sent w1 req) [power_send_log] in
  change_status net py_str inverterSn status renewToken maxTokenRetries w =
  (Ok tt,
   match net (sent w1) req with
   | Unreachable => add_log w2 [power_error ConnectionError]
   | Replied r =>
       if status_code r =? 200 then w2 else add_log w2 [power_warning]
   end).
Proof.
  intros H. apply Z.leb_gt in H.
  unfold change_status, power_request. run. rewrite H. run.
  rewrite acquire_token_run. run.
  set (w1 := acquired net renewToken _).
  destruct (net (sent w1) _) as [|r]; [done_run|].
  run. destruct (status_code r =? 200); done_run.
Qed.

Lemma set_charge_mode_exhausted wallboxSn mode chargePower renewToken
    maxTokenRetries w :
  maxTokenRetries <= 0 ->
  set_charge_mode net wallboxSn mode chargePower renewToken maxTokenRetries w =
  (Ok tt, add_log w [charge_call_log; retries_log; charge_error OutOfRetries]).
Proof.
  intros H. apply Z.leb_le in H.
  unfold set_charge_mode. run. rewrite H. done_run.
Qed.

Lemma set_charge_mode_run wallboxSn mode chargePower renewToken
    maxTokenRetries w :
  0 < maxTokenRetries ->
  let w1 := acquired net renewToken (add_log w [charge_call_log]) in
  let req := charge_request wallboxSn mode chargePower (_token (self w1)) in
  let w2 := add_log (add_sent w1 req) [charge_send_log] in
  set_charge_mode net wallboxSn mode chargePower renewToken maxTokenRetries w =
  (Ok tt,
   match net (sent w1) req with
   | Unreachable => add_log w2 [charge_error ConnectionError]
   | Replied r =>
       if status_code r =? 200 then w2 else add_log w2 [charge_debug]
   end).
Proof.
  intros H. apply Z.leb_gt in H.
  unfold set_charge_mode, charge_request. run. rewrite H. run.
  rewrite acquire_token_run. run.
  set (w1 := acquired net renewToken _).
  destruct (net (sent w1) _) as [|r]; [done_run|].
  run. destruct (status_code r =? 200); done_run.
Qed.

(** ** Facts about logins and the preamble *)

Lemma login_fails_outcome a :
  login_fails a = true -> exists e, login_outcome a = Err e.
Proof.
  unfold login_fails, login_outcome. destruct a as [|r]; [eauto|].
  destruct (http_error r); [eauto|]. cbn [orb].
  destruct (body r) as [j|]; [|eauto].
  destruct (getitem j "data") as [d|e]; [|eauto].
  destruct (getitem j "api") as [api|e]; [|eauto].
  destruct d; cbn [setitem]; eauto. discriminate.
Qed.

Lemma login_fails_token a : login_fails a = true -> login_token a = JNull.
Proof.
  intros H. destruct (login_fails_outcome a H) as [e E].
  unfold login_token. rewrite E. reflexivity.
Qed.

Lemma login_fails_logged a :
  login_fails a = true ->
  exists l e, login_log a = (l ++ [login_error e])%list.
Proof.
  intros H. destruct (login_fails_outcome a H) as [e E].
  unfold login_log. destruct a as [|r].
  - exists [mkLog DEBUG "SEMS - Getting API token" None], ConnectionError.
    reflexivity.
  - rewrite E. unfold login_outcome in E.
    destruct (http_error r).
    + eexists [_; _], _. reflexivity.
    + destruct (body r) as [j|].
      * eexists [_; _; _], _. reflexivity.
      * eexists [_; _], _. reflexivity.
Qed.

Lemma assoc_set_same k v f : assoc k (assoc_set k v f) = Some v.
Proof.
  induction f as [|[k' v'] f IH]; cbn [assoc_set assoc].
  - rewrite String.eqb_refl. reflexivity.
  - destruct (String.eqb k k') eqn:E; cbn [assoc]; rewrite ?String.eqb_refl, ?E;
      auto.
Qed.

Lemma login_succeeds_token a :
  login_fails a = false ->
  exists f api, login_token a = JObj f /\ assoc "api" f = Some api.
Proof.
  unfold login_fails, login_token, login_outcome. destruct a as [|r]; [discriminate|].
  destruct (http_error r); [discriminate|]. cbn [orb].
  destruct (body r) as [j|]; [|discriminate].
  destruct (getitem j "data") as [d|e]; [|discriminate].
  destruct (getitem j "api") as [api|e]; [|destruct d; discriminate].
  destruct d; try discriminate. intros _. cbn [setitem].
  eexists _, api. split; [reflexivity|apply assoc_set_same].
Qed.

Lemma acquired_sent renewToken w :
  sent (acquired net renewToken w) =
  (sent w ++ if needs_login w renewToken then [login_of w] else [])%list.
Proof.
  unfold acquired, needs_login, login_of.
  destruct (is_none (_token (self w)) || renewToken); cbn [sent].
  - reflexivity.
  - rewrite app_nil_r. reflexivity.
Qed.

Lemma acquired_token renewToken w :
  _token (self (acquired net renewToken w)) =
  if needs_login w renewToken then login_token (net (sent w) (login_of w))
  else _token (self w).
Proof.
  unfold acquired, needs_login, login_of.
  destruct (is_none (_token (self w)) || renewToken); reflexivity.
Qed.

Lemma acquired_logged renewToken w :
  exists l, logged (acquired net renewToken w) = (logged w ++ l)%list.
Proof.
  unfold acquired.
  destruct (is_none (_token (self w)) || renewToken); cbn [logged].
  - rewrite <- app_assoc. eauto.
  - exists []. rewrite app_nil_r. reflexivity.
Qed.

Lemma status_calls_app h1 h2 :
  status_calls (h1 ++ h2) = (status_calls h1 + status_calls h2)%nat.
Proof. unfold status_calls. rewrite filter_app, length_app. reflexivity. Qed.

Lemma status_calls_acquired renewToken w :
  status_calls (sent (acquired net renewToken w)) = status_calls (sent w).
Proof.
  rewrite acquired_sent, status_calls_app.
  destruct (needs_login w renewToken); cbn; lia.
Qed.

Lemma status_calls_status h powerStationId tok :
  status_calls (h ++ [status_request powerStationId tok]) = S (status_calls h).
Proof. rewrite status_calls_app. cbn. lia. Qed.

Lemma new_requests_app w w' l :
  sent w' = (sent w ++ l)%list -> new_requests w w' = l.
Proof.
  intros E. unfold new_requests. rewrite E.
  rewrite skipn_app, skipn_all, Nat.sub_diag. reflexivity.
Qed.

Lemma msg_not_success_refusal a : msg_not_success a -> soft_refusal a.
Proof.
  intros (r & j & m & Ha & Hb & Hm & Hn). exists r, j.
  repeat split; try assumption. unfold query_failed. rewrite Hm, Hn.
  reflexivity.
Qed.

(** ** The retry loop *)

Lemma first_attempt_sent renewToken w powerStationId l :
  let w1 := acquired net renewToken (add_log w [status_call_log]) in
  let req := status_request powerStationId (_token (self w1)) in
  sent (add_log (add_sent w1 req) l) =
    (sent w ++ first_requests w renewToken req)%list /\
  map req_url (first_requests w renewToken req) =
    first_urls (needs_login w renewToken) /\
  filter is_status (first_requests w renewToken req) = [req] /\
  status_calls (sent (add_log (add_sent w1 req) l)) = S (status_calls (sent w)).
Proof.
  intros w1 req. cbn [add_log add_sent sent]. unfold first_requests.
  split; [|split; [|split]].
  - unfold w1. rewrite acquired_sent, <- app_assoc. reflexivity.
  - unfold first_urls. destruct (needs_login w renewToken); reflexivity.
  - destruct (needs_login w renewToken); reflexivity.
  - unfold req. rewrite status_calls_status. unfold w1.
    rewrite status_calls_acquired. reflexivity.
Qed.

Lemma needs_login_renew w : needs_login w true = true.
Proof. unfold needs_login. apply orb_true_r. Qed.

Lemma needs_login_add_log w l renewToken :
  needs_login (add_log w l) renewToken = needs_login w renewToken.
Proof. reflexivity. Qed.

Lemma attempt_requests_shift k powerStationId renewToken w :
  let w1 := acquired net renewToken (add_log w [status_call_log]) in
  let req := status_request powerStationId (_token (self w1)) in
  map (fun i => snd (attempt_request net i powerStationId renewToken w))
      (seq 0 (S k)) =
  req :: map (fun i =>
                snd (attempt_request net i powerStationId true
                       (add_log (add_log (add_sent w1 req) [query_log])
                                [retry_log])))
             (seq 0 k).
Proof.
  intros w1 req. cbn [seq map]. f_equal. rewrite <- seq_shift, map_map.
  reflexivity.
Qed.

(** Every attempt of the call refused: the budget is used up attempt by
    attempt and the last call, left with none, gives up. *)
Lemma refused_until_exhausted powerStationId :
  forall k depth renewToken w,
  (S k <= depth)%nat ->
  (forall i, (i <= k)%nat ->
             soft_refusal (attempt_answer net i powerStationId renewToken w)) ->
  exists w' new l,
    getData net depth powerStationId renewToken (Z.of_nat (S k)) w
      = (Ok JNull, w') /\
    sent w' = (sent w ++ new)%list /\
    map req_url new =
      (first_urls (needs_login w renewToken) ++ retry_urls k)%list /\
    filter is_status new =
      map (fun i => snd (attempt_request net i powerStationId renewToken w))
          (seq 0 (S k)) /\
    logged w' = (logged w ++ l ++ [fetch_error OutOfRetries])%list.
Proof.
  intros k. induction k as [|k IH]; intros depth renewToken w Hd Href;
    (destruct depth as [|depth]; [lia|]).
  - pose proof (Href 0%nat (Nat.le_refl _)) as H0.
    apply attempt_refused in H0.
    unfold attempt_answer in H0. cbn [attempt_request fst snd] in H0.
    rewrite getData_step by lia. cbv zeta. rewrite H0.
    rewrite getData_exhausted by lia.
    set (w1 := acquired net renewToken (add_log w [status_call_log])).
    set (req := status_request powerStationId (_token (self w1))).
    destruct (first_attempt_sent renewToken w powerStationId
                [query_log; retry_log]) as (Hs & Hu & Hf & _).
    fold w1 in Hs, Hu, Hf. fold req in Hs, Hu, Hf.
    destruct (acquired_logged renewToken (add_log w [status_call_log]))
      as [l Hl]. fold w1 in Hl.
    eexists _, (first_requests w renewToken req),
      ([status_call_log] ++ l ++
       [query_log; retry_log; status_call_log; retries_log])%list.
    split; [reflexivity|]. cbn [add_log add_sent sent logged] in *.
    split; [exact Hs|]. split; [rewrite Hu, app_nil_r; reflexivity|].
    split; [exact Hf|].
    rewrite Hl. rewrite <- ?app_assoc. reflexivity.
  - pose proof (Href 0%nat (Nat.le_0_l _)) as H0.
    apply attempt_refused in H0.
    unfold attempt_answer in H0. cbn [attempt_request fst snd] in H0.
    rewrite getData_step by lia. cbv zeta. rewrite H0.
    set (w1 := acquired net renewToken (add_log w [status_call_log])).
    set (req := status_request powerStationId (_token (self w1))).
    replace (Z.of_nat (S (S k)) - 1) with (Z.of_nat (S k)) by lia.
    destruct (IH depth true
                (add_log (add_log (add_sent w1 req) [query_log]) [retry_log]))
      as (w' & new' & l' & E & Hs' & Hu' & Hf' & Hl').
    + lia.
    + intros i Hi. apply (Href (S i)). lia.
    + destruct (first_attempt_sent renewToken w powerStationId
                  [query_log; retry_log]) as (Hs & Hu & Hf & _).
      fold w1 in Hs, Hu, Hf. fold req in Hs, Hu, Hf.
      destruct (acquired_logged renewToken (add_log w [status_call_log]))
        as [l Hl]. fold w1 in Hl.
      rewrite needs_login_renew in Hu'.
      exists w', (first_requests w renewToken req ++ new')%list,
        ([status_call_log] ++ l ++ [query_log; retry_log] ++ l')%list.
      split; [exact E|]. cbn [add_log add_sent sent logged] in *.
      split; [rewrite Hs', Hs, app_assoc; reflexivity|].
      split; [rewrite map_app, Hu, Hu'; reflexivity|].
      split.
      * rewrite filter_app, Hf, Hf'.
        rewrite (attempt_requests_shift (S k)). reflexivity.
      * rewrite Hl'. rewrite Hl. rewrite <- ?app_assoc. reflexivity.
Qed.

(** [k] refusals and then a good answer: the payload of attempt [k + 1]
    comes back and nothing is sent after it. *)
Lemma refused_then_answered powerStationId d :
  forall k depth renewToken maxTokenRetries w,
  Z.of_nat k < maxTokenRetries ->
  (k <= depth)%nat ->
  (forall i, (i < k)%nat ->
             soft_refusal (attempt_answer net i powerStationId renewToken w)) ->
  good_answer d (attempt_answer net k powerStationId renewToken w) ->
  exists w' new,
    getData net depth powerStationId renewToken maxTokenRetries w = (Ok d, w') /\
    sent w' = (sent w ++ new)%list /\
    map req_url new =
      (first_urls (needs_login w renewToken) ++ retry_urls k)%list /\
    filter is_status new =
      map (fun i => snd (attempt_request net i powerStationId renewToken w))
          (seq 0 (S k)) /\
    exists init tok, new = (init ++ [status_request powerStationId tok])%list.
Proof.
  intros k. induction k as [|k IH];
    intros depth renewToken n w Hk Hd Href Hgood.
  - apply attempt_answered in Hgood.
    unfold attempt_answer in Hgood. cbn [attempt_request fst snd] in Hgood.
    rewrite getData_step by lia. cbv zeta. rewrite Hgood.
    set (w1 := acquired net renewToken (add_log w [status_call_log])).
    set (req := status_request powerStationId (_token (self w1))).
    destruct (first_attempt_sent renewToken w powerStationId [query_log])
      as (Hs & Hu & Hf & _).
    fold w1 in Hs, Hu, Hf. fold req in Hs, Hu, Hf.
    eexists _, (first_requests w renewToken req).
    split; [reflexivity|]. split; [exact Hs|].
    split; [rewrite Hu, app_nil_r; reflexivity|].
    split; [exact Hf|].
    eexists _, (_token (self w1)). reflexivity.
  - destruct depth as [|depth]; [lia|].
    pose proof (Href 0%nat (Nat.lt_0_succ _)) as H0.
    apply attempt_refused in H0.
    unfold attempt_answer in H0. cbn [attempt_request fst snd] in H0.
    rewrite getData_step by lia. cbv zeta. rewrite H0.
    set (w1 := acquired net renewToken (add_log w [status_call_log])).
    set (req := status_request powerStationId (_token (self w1))).
    destruct (IH depth true (n - 1)
                (add_log (add_log (add_sent w1 req) [query_log]) [retry_log]))
      as (w' & new' & E & Hs' & Hu' & Hf' & init' & tok & Hlast').
    + lia.
    + lia.
    + intros i Hi. apply (Href (S i)). lia.
    + exact Hgood.
    + destruct (first_attempt_sent renewToken w powerStationId
                  [query_log; retry_log]) as (Hs & Hu & Hf & _).
      fold w1 in Hs, Hu, Hf. fold req in Hs, Hu, Hf.
      rewrite needs_login_renew in Hu'.
      exists w', (first_requests w renewToken req ++ new')%list.
      split; [exact E|]. cbn [add_log add_sent sent] in *.
      split; [rewrite Hs', Hs, app_assoc; reflexivity|].
      split; [rewrite map_app, Hu, Hu'; reflexivity|].
      split.
      * rewrite filter_app, Hf, Hf'.
        rewrite (attempt_requests_shift (S k)). reflexivity.
      * exists (first_requests w renewToken req ++ init')%list, tok.
        rewrite Hlast', app_assoc. reflexivity.
Qed.

(** When no login gets through, a call that starts with the preamble ends
    without a token, whatever it held before. *)
Lemma getData_drops_token powerStationId :
  (forall h r, req_url r = _LoginURL -> login_fails (net h r) = true) ->
  forall k depth renewToken w,
  needs_login w renewToken = true ->
  exists v w',
    getData net depth powerStationId renewToken (Z.of_nat (S k)) w
      = (Ok v, w') /\
    _token (self w') = JNull.
Proof.
  intros Hlogin k. induction k as [|k IH]; intros depth renewToken w Hneed.
  all: rewrite getData_step by lia; cbv zeta.
  all: set (w1 := acquired net renewToken (add_log w [status_call_log])).
  all: assert (Ht : _token (self w1) = JNull)
    by (unfold w1; rewrite acquired_token, needs_login_add_log, Hneed;
        apply login_fails_token, Hlogin; reflexivity).
  all: set (req := status_request powerStationId (_token (self w1))).
  all: destruct (attempt_of (net (sent w1) req)) as [e| |d];
    [ eexists _, _; split; [reflexivity|exact Ht]
    | destruct depth as [|depth];
      [eexists _, _; split; [reflexivity|exact Ht]|]
    | eexists _, _; split; [reflexivity|exact Ht] ].
  - rewrite getData_exhausted by lia.
    eexists _, _. split; [reflexivity|exact Ht].
  - replace (Z.of_nat (S (S k)) - 1) with (Z.of_nat (S k)) by lia.
    apply IH. apply needs_login_renew.
Qed.

(** ** Exhausted budget *)

(** C1, as the code has it.  With [maxTokenRetries <= 0] the [try] block of
    [getData] raises [OutOfRetries] before anything is sent; the method's own
    [except] clause catches it, so the caller gets [None]: no request goes
    out, the client is unchanged and the log ends with the error record. *)
Theorem getData_no_budget depth powerStationId renewToken maxTokenRetries w :
  maxTokenRetries <= 0 ->
  getData_try net (recursive_call net depth)
              powerStationId renewToken maxTokenRetries w =
    (Err OutOfRetries, add_log w [status_call_log; retries_log]) /\
  exists w',
    getData net depth powerStationId renewToken maxTokenRetries w
      = (Ok JNull, w') /\
    sent w' = sent w /\
    self w' = self w /\
    logged w' =
      (logged w ++ [status_call_log; retries_log; fetch_error OutOfRetries])%list.
Proof.
  intros H. split.
  - apply Z.leb_le in H. unfold getData_try. run. rewrite H. done_run.
  - rewrite getData_exhausted by assumption.
    eexists. split; [reflexivity|]. repeat split.
Qed.

(** C8.  [getData] never hands an exception to its caller: it always
    returns; whatever its [try] block raises is logged by the [except]
    clause and turned into [None]; and with the budget used up the block
    raises [OutOfRetries] itself, which goes the same way (as does the
    [RecursionError] of a call nested too deep). *)
Theorem getData_swallows_exceptions depth powerStationId renewToken
    maxTokenRetries w :
  (exists v w',
     getData net depth powerStationId renewToken maxTokenRetries w
       = (Ok v, w')) /\
  (forall e w',
     getData_try net (recursive_call net depth)
                 powerStationId renewToken maxTokenRetries w
       = (Err e, w') ->
     getData net depth powerStationId renewToken maxTokenRetries w
       = (Ok JNull, add_log w' [fetch_error e])) /\
  (maxTokenRetries <= 0 ->
   getData net depth powerStationId renewToken maxTokenRetries w
     = (Ok JNull,
        add_log w [status_call_log; retries_log; fetch_error OutOfRetries])).
Proof.
  split; [apply getData_returns|]. split.
  - intros e w' E. rewrite getData_unfold.
    unfold getData_body, try_except. rewrite E. reflexivity.
  - apply getData_exhausted.
Qed.

(** ** Logging in *)

(** C3, as the code has it.  When the login request fails in transport,
    comes back with a 4xx or 5xx status, has a body that is not JSON, or a
    body without a ["data"] object or without ["api"], [getLoginToken] does
    not raise: it logs the error and returns [None].  The client, and with it
    the token held before, is unchanged. *)
Theorem getLoginToken_failure userName password w :
  login_fails (net (sent w) (login_request userName password)) = true ->
  exists w' l e,
    getLoginToken net userName password w = (Ok JNull, w') /\
    self w' = self w /\
    sent w' = (sent w ++ [login_request userName password])%list /\
    logged w' = (logged w ++ l ++ [login_error e])%list.
Proof.
  intros H. rewrite getLoginToken_run, (login_fails_token _ H).
  destruct (login_fails_logged _ H) as (l & e & E). rewrite E.
  eexists _, l, e. split; [reflexivity|]. repeat split.
Qed.

(** C9.  [test_authentication] stores whatever [getLoginToken] returned: a
    login that works leaves the client with the fresh token and answers
    [True]; one that fails leaves it with [None], and answers [False],
    also when a token was held before. *)
Theorem test_authentication_overwrites w :
  let a := net (sent w) (login_of w) in
  exists w',
    test_authentication net w = (Ok (negb (is_none (login_token a))), w') /\
    _token (self w') = login_token a /\
    (login_fails a = true ->
     _token (self w') = JNull /\ fst (test_authentication net w) = Ok false) /\
    (login_fails a = false ->
     _token (self w') <> JNull /\ fst (test_authentication net w) = Ok true).
Proof.
  intros a.
  assert (E : test_authentication net w =
              (Ok (negb (is_none (login_token a))),
               mkWorld (mkSemsApi (_username (self w)) (_password (self w))
                                  (login_token a))
                       (sent w ++ [login_of w])
                       (logged w ++ login_log a))).
  { unfold test_authentication. run. rewrite getLoginToken_run. reflexivity. }
  rewrite E. eexists. split; [reflexivity|]. cbn [self _token fst].
  split; [reflexivity|]. split; intros H.
  - rewrite (login_fails_token _ H). split; reflexivity.
  - destruct (login_succeeds_token _ H) as (f & api & Ht & _).
    rewrite Ht. split; [discriminate|reflexivity].
Qed.

(** ** Counting requests *)

Lemma status_calls_first_urls l b k :
  map req_url l = (first_urls b ++ retry_urls k)%list ->
  status_calls l = S k.
Proof.
  assert (R : forall k l, map req_url l = retry_urls k -> status_calls l = k).
  { clear. intros k. induction k as [|k IH]; intros l E.
    - destruct l; [reflexivity|discriminate].
    - destruct l as [|q1 [|q2 l]]; try discriminate.
      cbn [map retry_urls] in E. injection E as E1 E2 E3.
      change (q1 :: q2 :: l) with ([q1; q2] ++ l)%list.
      rewrite status_calls_app, (IH l E3).
      unfold status_calls, filter, is_status. rewrite E1, E2. reflexivity. }
  intros E. destruct b; cbn [first_urls app] in E.
  - apply (R (S k)). exact E.
  - destruct l as [|q l]; [discriminate|].
    cbn [map] in E. injection E as E1 E2.
    change (q :: l) with ([q] ++ l)%list.
    rewrite status_calls_app, (R k l E2).
    unfold status_calls, filter, is_status. rewrite E1. reflexivity.
Qed.

(** A call only ever adds to the history. *)
Lemma getData_extends powerStationId :
  forall k depth renewToken maxTokenRetries w,
  Z.to_nat maxTokenRetries = k ->
  exists v w' new,
    getData net depth powerStationId renewToken maxTokenRetries w = (Ok v, w') /\
    sent w' = (sent w ++ new)%list.
Proof.
  intros k. induction k as [|k IH]; intros depth renewToken n w Hk.
  - rewrite getData_exhausted by lia.
    eexists _, _, []. split; [reflexivity|]. cbn [add_log sent].
    rewrite app_nil_r. reflexivity.
  - rewrite getData_step by lia. cbv zeta.
    set (w1 := acquired net renewToken (add_log w [status_call_log])).
    set (req := status_request powerStationId (_token (self w1))).
    destruct (first_attempt_sent renewToken w powerStationId [query_log])
      as (Hs & _). fold w1 in Hs. fold req in Hs.
    cbn [add_log add_sent sent] in Hs.
    destruct (attempt_of (net (sent w1) req)) as [e| |d];
      [ eexists _, _, _; split; [reflexivity|exact Hs]
      | destruct depth as [|depth];
        [eexists _, _, _; split; [reflexivity|exact Hs]|]
      | eexists _, _, _; split; [reflexivity|exact Hs] ].
    destruct (IH depth true (n - 1)
                (add_log (add_log (add_sent w1 req) [query_log]) [retry_log]))
      as (v & w' & new' & E & Hs'); [lia|].
    rewrite E.
    exists v, w', (first_requests w renewToken req ++ new')%list.
    split; [reflexivity|].
    rewrite Hs'. cbn [add_log add_sent sent]. rewrite Hs, app_assoc.
    reflexivity.
Qed.

(** With budget left and a login due, the call opens with the login and
    sends the status request under whatever the login returned. *)
Lemma getData_first_requests depth powerStationId renewToken maxTokenRetries w :
  0 < maxTokenRetries ->
  needs_login w renewToken = true ->
  exists v w' rest,
    getData net depth powerStationId renewToken maxTokenRetries w
      = (Ok v, w') /\
    sent w' =
      (sent w ++
       login_of w ::
       status_request powerStationId (login_token (net (sent w) (login_of w))) ::
       rest)%list.
Proof.
  intros Hn Hneed.
  destruct (getData_returns depth powerStationId renewToken maxTokenRetries w)
    as (v & w' & E).
  exists v, w'. rewrite E.
  rewrite getData_step in E by lia. cbv zeta in E.
  set (w1 := acquired net renewToken (add_log w [status_call_log])) in E.
  assert (Ht : _token (self w1) = login_token (net (sent w) (login_of w)))
    by (unfold w1; rewrite acquired_token, needs_login_add_log, Hneed;
        reflexivity).
  assert (Hs : sent w1 = (sent w ++ [login_of w])%list)
    by (unfold w1; rewrite acquired_sent, needs_login_add_log, Hneed;
        reflexivity).
  rewrite Ht in E.
  set (req := status_request powerStationId _) in *.
  assert (Hs2 : (sent w1 ++ [req] = sent w ++ [login_of w; req])%list)
    by (rewrite Hs, <- app_assoc; reflexivity).
  destruct (attempt_of (net (sent w1) req)) as [e| |d];
    [ injection E as _ E; subst w'; exists []; split; [reflexivity|exact Hs2]
    | destruct depth as [|depth];
      [injection E as _ E; subst w'; exists [];
       split; [reflexivity|exact Hs2]|]
    | injection E as _ E; subst w'; exists []; split; [reflexivity|exact Hs2] ].
  destruct (getData_extends powerStationId _ depth true (maxTokenRetries - 1)
              (add_log (add_log (add_sent w1 req) [query_log]) [retry_log])
              eq_refl)
    as (v' & w'' & new' & E' & Hs').
  rewrite E' in E. injection E as _ E. subst w''.
  exists new'. split; [reflexivity|].
  rewrite Hs'. cbn [add_log add_sent sent]. rewrite Hs, <- !app_assoc.
  reflexivity.
Qed.

(** ** The status poll *)

(** C2, as the code has it.  With a budget [N > 0] that the recursion depth
    has room for, and every status attempt of the call answered with a
    ["msg"] other than ["success"], [getData] sends exactly [N] status
    requests, those of its [N] attempts.  Every attempt after the first
    comes right after one login; the first one does so exactly when no token
    is held or [renewToken] is set.  The call then returns [None]: the
    [OutOfRetries] of the last recursive call is caught and logged there. *)
Theorem getData_all_refused depth powerStationId renewToken maxTokenRetries w :
  0 < maxTokenRetries ->
  (Z.to_nat maxTokenRetries <= depth)%nat ->
  (forall i, (i < Z.to_nat maxTokenRetries)%nat ->
             msg_not_success
               (attempt_answer net i powerStationId renewToken w)) ->
  exists w' l,
    getData net depth powerStationId renewToken maxTokenRetries w
      = (Ok JNull, w') /\
    map req_url (new_requests w w') =
      (first_urls (needs_login w renewToken) ++
       retry_urls (Z.to_nat (maxTokenRetries - 1)))%list /\
    status_calls (new_requests w w') = Z.to_nat maxTokenRetries /\
    filter is_status (new_requests w w') =
      map (fun i => snd (attempt_request net i powerStationId renewToken w))
          (seq 0 (Z.to_nat maxTokenRetries)) /\
    logged w' = (logged w ++ l ++ [fetch_error OutOfRetries])%list.
Proof.
  intros Hn Hd Href.
  destruct (refused_until_exhausted powerStationId
              (Z.to_nat (maxTokenRetries - 1)) depth renewToken w)
    as (w' & new & l & E & Hs & Hu & Hf & Hl).
  - lia.
  - intros i Hi. apply msg_not_success_refusal, Href. lia.
  - replace (Z.of_nat (S (Z.to_nat (maxTokenRetries - 1))))
      with maxTokenRetries in E by lia.
    replace (S (Z.to_nat (maxTokenRetries - 1)))
      with (Z.to_nat maxTokenRetries) in Hf by lia.
    exists w', l. rewrite (new_requests_app _ _ _ Hs).
    split; [exact E|]. split; [exact Hu|].
    split; [|split; [exact Hf|exact Hl]].
    rewrite (status_calls_first_urls _ _ _ Hu). lia.
Qed.

(** C5, as the code has it.  If the first [N - 1] status attempts of a call
    are refused and the [N]-th is answered with ["success"] and a payload,
    the budget is at least [N] and the recursion depth has room for the
    [N - 1] nested calls, then [getData] returns that payload; it has sent
    [N] status requests, those of its attempts, and the last request it sent
    is the [N]-th of them. *)
Theorem getData_answered_at depth powerStationId renewToken maxTokenRetries
    N d w :
  (1 <= N)%nat ->
  Z.of_nat N <= maxTokenRetries ->
  (N - 1 <= depth)%nat ->
  (forall i, (i < N - 1)%nat ->
             soft_refusal (attempt_answer net i powerStationId renewToken w)) ->
  good_answer d (attempt_answer net (N - 1) powerStationId renewToken w) ->
  exists w',
    getData net depth powerStationId renewToken maxTokenRetries w
      = (Ok d, w') /\
    map req_url (new_requests w w') =
      (first_urls (needs_login w renewToken) ++ retry_urls (N - 1))%list /\
    status_calls (new_requests w w') = N /\
    filter is_status (new_requests w w') =
      map (fun i => snd (attempt_request net i powerStationId renewToken w))
          (seq 0 N) /\
    exists init tok,
      new_requests w w' = (init ++ [status_request powerStationId tok])%list.
Proof.
  intros HN Hb Hd Href Hgood.
  destruct (refused_then_answered powerStationId d (N - 1)%nat depth renewToken
              maxTokenRetries w)
    as (w' & new & E & Hs & Hu & Hf & Hlast);
    [lia|assumption|assumption|assumption|].
  replace (S (N - 1)) with N in Hf by lia.
  exists w'. rewrite (new_requests_app _ _ _ Hs).
  split; [exact E|]. split; [exact Hu|].
  split; [|split; [exact Hf|exact Hlast]].
  rewrite (status_calls_first_urls _ _ _ Hu). lia.
Qed.


(** ** The commands *)

(** C6, as the code has it.  With budget left, the last request
    [set_charge_mode] sends goes to the charge-mode endpoint with a body
    holding ["sn"] and ["type"], and ["charge_power"] exactly when
    [chargePower] is truthy, then with that very value.  [None], but also
    [0], leave the field out. *)
Theorem set_charge_mode_body wallboxSn mode chargePower renewToken
    maxTokenRetries w :
  0 < maxTokenRetries ->
  exists w' init tok data,
    set_charge_mode net wallboxSn mode chargePower renewToken maxTokenRetries w
      = (Ok tt, w') /\
    sent w' =
      (init ++ [mkRequest _SetChargeModeURL (token_headers tok) (Json data)
                          _RequestTimeout])%list /\
    getitem data "sn" = Ok wallboxSn /\
    getitem data "type" = Ok mode /\
    getitem data "charge_power" =
      (if truthy chargePower then Ok chargePower
       else Err (KeyError "charge_power")).
Proof.
  intros Hn. rewrite set_charge_mode_run by assumption. cbv zeta.
  set (w1 := acquired net renewToken (add_log w [charge_call_log])).
  eexists.
  exists (sent w1), (_token (self w1)),
    (charge_mode_data wallboxSn mode chargePower).
  split; [reflexivity|]. split.
  - destruct (net (sent w1) _) as [|r]; [reflexivity|].
    destruct (status_code r =? 200); reflexivity.
  - unfold charge_mode_data. destruct (truthy chargePower); repeat split.
Qed.

(** C7.  When the command endpoints cannot be reached, [change_status] and
    [set_charge_mode] still return normally and the log ends with their
    error record.  With budget left the command request was sent, it is the
    last request of the call, and the record is the one for its transport
    failure; without budget the record is the one for [OutOfRetries]. *)
Theorem commands_swallow_transport_failure
    inverterSn status wallboxSn mode chargePower renewToken maxTokenRetries w :
  (forall h r,
     req_url r = _PowerControlURL \/ req_url r = _SetChargeModeURL ->
     net h r = Unreachable) ->
  (exists w' l e,
     change_status net py_str inverterSn status renewToken maxTokenRetries w
       = (Ok tt, w') /\
     logged w' = (logged w ++ l ++ [power_error e])%list /\
     (0 < maxTokenRetries ->
      e = ConnectionError /\
      exists init tok,
        sent w' =
          (init ++ [power_request py_str inverterSn status tok])%list)) /\
  (exists w' l e,
     set_charge_mode net wallboxSn mode chargePower renewToken maxTokenRetries w
       = (Ok tt, w') /\
     logged w' = (logged w ++ l ++ [charge_error e])%list /\
     (0 < maxTokenRetries ->
      e = ConnectionError /\
      exists init tok,
        sent w' =
          (init ++ [charge_request wallboxSn mode chargePower tok])%list)).
Proof.
  intros Hdown. destruct (Z_le_gt_dec maxTokenRetries 0) as [H|H].
  - rewrite change_status_exhausted, set_charge_mode_exhausted by assumption.
    split; eexists _, [_; _], OutOfRetries;
      (split; [reflexivity|]); (split; [reflexivity|lia]).
  - rewrite change_status_run, set_charge_mode_run by lia. cbv zeta.
    rewrite !Hdown by (cbn [req_url power_request charge_request]; auto).
    split.
    + destruct (acquired_logged renewToken (add_log w [power_call_log]))
        as [l Hl].
      eexists _, ([power_call_log] ++ l ++ [power_send_log])%list,
        ConnectionError.
      split; [reflexivity|]. split.
      * cbn [add_log add_sent logged] in *. rewrite Hl, <- ?app_assoc.
        reflexivity.
      * intros _. split; [reflexivity|]. eexists _, _. reflexivity.
    + destruct (acquired_logged renewToken (add_log w [charge_call_log]))
        as [l Hl].
      eexists _, ([charge_call_log] ++ l ++ [charge_send_log])%list,
        ConnectionError.
      split; [reflexivity|]. split.
      * cbn [add_log add_sent logged] in *. rewrite Hl, <- ?app_assoc.
        reflexivity.
      * intros _. split; [reflexivity|]. eexists _, _. reflexivity.
Qed.

(** C10.  With budget left and no token held, or [renewToken] set, each of
    the three calls stores what [getLoginToken] returned, without looking at
    it: the two commands end holding it, and [getData] sends its status
    request under it.  A login that fails returns [None], so a token held
    before is replaced by [None]; and when no login gets through, [getData]
    too ends without a token. *)
Theorem preamble_overwrites_token
    depth powerStationId inverterSn status wallboxSn mode chargePower renewToken
    maxTokenRetries w :
  0 < maxTokenRetries ->
  needs_login w renewToken = true ->
  let a := net (sent w) (login_of w) in
  _token (self (snd (change_status net py_str inverterSn status renewToken
                                   maxTokenRetries w))) = login_token a /\
  _token (self (snd (set_charge_mode net wallboxSn mode chargePower renewToken
                                     maxTokenRetries w))) = login_token a /\
  (exists rest,
     sent (snd (getData net depth powerStationId renewToken maxTokenRetries w)) =
       (sent w ++
        login_of w :: status_request powerStationId (login_token a) :: rest)%list) /\
  (login_fails a = true -> login_token a = JNull) /\
  ((forall h r, req_url r = _LoginURL -> login_fails (net h r) = true) ->
   _token (self (snd (getData net depth powerStationId renewToken maxTokenRetries w)))
     = JNull).
Proof.
  intros Hn Hneed a.
  rewrite change_status_run, set_charge_mode_run by assumption. cbv zeta.
  cbn [snd].
  split; [|split; [|split; [|split]]].
  - destruct (net _ (power_request _ _ _ _)) as [|r];
      [|destruct (status_code r =? 200)];
      cbn [add_log add_sent self];
      rewrite acquired_token, needs_login_add_log, Hneed; reflexivity.
  - destruct (net _ (charge_request _ _ _ _)) as [|r];
      [|destruct (status_code r =? 200)];
      cbn [add_log add_sent self];
      rewrite acquired_token, needs_login_add_log, Hneed; reflexivity.
  - destruct (getData_first_requests depth powerStationId renewToken
                maxTokenRetries w Hn Hneed) as (v & w' & rest & E & Hs).
    rewrite E. exists rest. exact Hs.
  - apply login_fails_token.
  - intros Hlogin.
    destruct (getData_drops_token powerStationId Hlogin
                (Z.to_nat (maxTokenRetries - 1)) depth renewToken w Hneed)
      as (v & w' & E & Ht).
    replace (Z.of_nat (S (Z.to_nat (maxTokenRetries - 1))))
      with maxTokenRetries in E by lia.
    rewrite E. exact Ht.
Qed.

End Properties.

(** * Concrete runs *)

(** The login works and the status call answers with a payload at once. *)
Example getData_first_try :
  fst (getData (portal 0 (JObj [("power", JNum 0)])) usual_depth "GW-A1" false 20
               fresh_client)
    = Ok (JObj [("power", JNum 0)]) /\
  map req_url
      (sent (snd (getData (portal 0 (JObj [("power", JNum 0)])) usual_depth
                          "GW-A1" false 20 fresh_client)))
    = [_LoginURL; _WallboxURL].
Proof. split; vm_compute; reflexivity. Qed.

(** One refusal, then the payload: two logins and two status calls. *)
Example getData_second_try :
  fst (getData (portal 1 (JObj [("mode", JStr "eco")])) usual_depth "GW-A1" false
               20 fresh_client)
    = Ok (JObj [("mode", JStr "eco")]) /\
  map req_url
      (sent (snd (getData (portal 1 (JObj [("mode", JStr "eco")])) usual_depth
                          "GW-A1" false 20 fresh_client)))
    = [_LoginURL; _WallboxURL; _LoginURL; _WallboxURL].
Proof. split; vm_compute; reflexivity. Qed.

(** Without a connection the power command returns and its last log record
    is the error for the failed request. *)
Example change_status_offline :
  fst (change_status offline sample_str (JStr "GW-A1") (JNum 1) false 2
                     logged_in_client) = Ok tt /\
  logged (snd (change_status offline sample_str (JStr "GW-A1") (JNum 1) false 2
                             logged_in_client))
    = [power_call_log; power_send_log; power_error ConnectionError].
Proof. split; vm_compute; reflexivity. Qed.

(** C1, as stated, fails.  A fresh client without a connection and with no
    budget: [getData] returns [None] instead of failing with
    [OutOfRetries]. *)
Lemma getData_no_budget_returns_None :
  fst (getData offline usual_depth "GW-A1" false 0 fresh_client) = Ok JNull /\
  fst (getData offline usual_depth "GW-A1" false 0 fresh_client)
    <> Err OutOfRetries.
Proof. split; [vm_compute; reflexivity | vm_compute; discriminate]. Qed.

Lemma getData_no_budget_witness :
  0 <= 0 /\
  exists w',
    getData offline usual_depth "GW-A1" false 0 logged_in_client
      = (Ok JNull, w') /\
    sent w' = sent logged_in_client /\
    self w' = self logged_in_client /\
    logged w' =
      (logged logged_in_client ++
       [status_call_log; retries_log; fetch_error OutOfRetries])%list.
Proof.
  split; [lia|].
  apply (getData_no_budget offline usual_depth "GW-A1" false 0
                           logged_in_client).
  lia.
Defined.

(** C2, as stated, fails.  A client that holds a token polls a portal that
    refuses every status request, with a budget of one: the only request
    sent is the status request, with no login before it, and the call
    returns [None] instead of failing with [OutOfRetries].  And with a
    budget of 1100, beyond what the recursion depth has room for, the call
    ends after 983 status requests. *)
Lemma getData_refused_once_no_login :
  map req_url
      (sent (snd (getData stale_portal usual_depth "GW-A1" false 1
                          logged_in_client)))
    = [_WallboxURL] /\
  fst (getData stale_portal usual_depth "GW-A1" false 1 logged_in_client)
    = Ok JNull /\
  status_calls
    (sent (snd (getData stale_portal usual_depth "GW-A1" false 1100
                        logged_in_client)))
    = 983%nat.
Proof. split; [|split]; vm_compute; reflexivity. Qed.

Lemma attempt_request_url net k powerStationId renewToken w :
  req_url (snd (attempt_request net k powerStationId renewToken w))
  = _WallboxURL.
Proof.
  revert renewToken w. induction k as [|k IH]; intros renewToken w;
    cbn [attempt_request]; [reflexivity|apply IH].
Defined.

Lemma stale_portal_refuses h r :
  req_url r = _WallboxURL -> msg_not_success (stale_portal h r).
Proof.
  intros E. exists refusal_reply, (JObj [("msg", JStr "fail"); ("data", JNull)]),
    (JStr "fail").
  unfold stale_portal, is_status. rewrite E. repeat split.
Defined.

Lemma getData_all_refused_witness :
  0 < 3 /\
  (Z.to_nat 3 <= usual_depth)%nat /\
  (forall i, (i < Z.to_nat 3)%nat ->
             msg_not_success
               (attempt_answer stale_portal i "GW-A1" false logged_in_client)) /\
  exists w' l,
    getData stale_portal usual_depth "GW-A1" false 3 logged_in_client
      = (Ok JNull, w') /\
    map req_url (new_requests logged_in_client w') =
      [_WallboxURL; _LoginURL; _WallboxURL; _LoginURL; _WallboxURL] /\
    status_calls (new_requests logged_in_client w') = 3%nat /\
    filter is_status (new_requests logged_in_client w') =
      map (fun i => snd (attempt_request stale_portal i "GW-A1" false
                                         logged_in_client))
          (seq 0 (Z.to_nat 3)) /\
    logged w' =
      (logged logged_in_client ++ l ++ [fetch_error OutOfRetries])%list.
Proof.
  assert (Hd : (Z.to_nat 3 <= usual_depth)%nat) by (unfold usual_depth; lia).
  assert (Href : forall i, (i < Z.to_nat 3)%nat ->
                 msg_not_success
                   (attempt_answer stale_portal i "GW-A1" false
                                   logged_in_client))
    by (intros i _; apply stale_portal_refuses, attempt_request_url).
  split; [lia|]. split; [exact Hd|]. split; [exact Href|].
  apply (getData_all_refused stale_portal usual_depth "GW-A1" false 3
                             logged_in_client);
    [lia|exact Hd|exact Href].
Defined.

(** C3, as stated, fails.  Without a connection [getLoginToken] returns
    [None]; it raises nothing.  And a status outside 2xx that is not an
    error for [raise_for_status] does not stop it from returning the token
    of the body. *)
Lemma getLoginToken_offline_returns_None :
  fst (getLoginToken offline "user@example.org" "secret" logged_in_client)
    = Ok JNull /\
  (forall e,
     fst (getLoginToken offline "user@example.org" "secret" logged_in_client)
       <> Err e) /\
  fst (getLoginToken multiple_choices "user@example.org" "secret" fresh_client)
    = Ok (JObj [ ("uid", JStr "d828fb31"); ("timestamp", JNum 1718757570161);
                 ("token", JStr "6578cf43"); ("client", JStr "ios");
                 ("version", JStr EmptyString); ("language", JStr "en");
                 ("api", JStr "https://eu.semsportal.com/api/") ]).
Proof.
  split; [vm_compute; reflexivity|].
  split; [intros e; vm_compute; discriminate | vm_compute; reflexivity].
Qed.

Lemma getLoginToken_failure_witness :
  login_fails (offline (sent logged_in_client)
                       (login_request "user@example.org" "secret")) = true /\
  exists w' l e,
    getLoginToken offline "user@example.org" "secret" logged_in_client
      = (Ok JNull, w') /\
    self w' = self logged_in_client /\
    sent w' =
      (sent logged_in_client ++ [login_request "user@example.org" "secret"])%list /\
    logged w' = (logged logged_in_client ++ l ++ [login_error e])%list.
Proof.
  split; [reflexivity|].
  apply (getLoginToken_failure offline "user@example.org" "secret"
                                logged_in_client).
  reflexivity.
Defined.



(** C5, as stated, fails.  The portal refuses 999 status requests and would
    answer the 1000th with the payload; the budget of 1100 covers it, but
    the recursion depth does not, and [getData] returns [None] after 983
    status requests. *)
Lemma getData_answer_beyond_depth :
  Z.of_nat 1000 <= 1100 /\
  (forall h r, req_url r = _WallboxURL -> status_calls h = 999%nat ->
               good_answer (JObj [("mode", JStr "eco")])
                           (portal 999 (JObj [("mode", JStr "eco")]) h r)) /\
  (let run := getData (portal 999 (JObj [("mode", JStr "eco")])) usual_depth
                      "GW-A1" false 1100 fresh_client in
   fst run = Ok JNull /\ status_calls (sent (snd run)) = 983%nat).
Proof.
  split; [lia|]. split; [|vm_compute; split; reflexivity].
  intros h r E H.
  exists (status_reply (JObj [("mode", JStr "eco")])),
    (JObj [("msg", JStr "success"); ("data", JObj [("mode", JStr "eco")])]).
  unfold portal, is_status. rewrite E, H. repeat split. discriminate.
Qed.

(** A client with a token the portal no longer takes: the first attempt is
    refused, the second, under the token of the new login, is answered. *)
Lemma picky_portal_refuses_stale i :
  (i < 2 - 1)%nat ->
  soft_refusal
    (attempt_answer (picky_portal (JObj [("mode", JStr "eco")])) i "GW-A1" false
                    logged_in_client).
Proof.
  intros Hi. assert (E : i = 0%nat) by lia. subst i.
  exists refusal_reply, (JObj [("msg", JStr "fail"); ("data", JNull)]).
  repeat split.
Defined.

Lemma picky_portal_takes_fresh :
  good_answer (JObj [("mode", JStr "eco")])
    (attempt_answer (picky_portal (JObj [("mode", JStr "eco")])) (2 - 1) "GW-A1"
                    false logged_in_client).
Proof.
  exists (status_reply (JObj [("mode", JStr "eco")])),
    (JObj [("msg", JStr "success"); ("data", JObj [("mode", JStr "eco")])]).
  repeat split. discriminate.
Defined.

Lemma getData_answered_at_witness :
  (1 <= 2)%nat /\
  Z.of_nat 2 <= 20 /\
  (2 - 1 <= usual_depth)%nat /\
  exists w',
    getData (picky_portal (JObj [("mode", JStr "eco")])) usual_depth "GW-A1"
            false 20 logged_in_client
      = (Ok (JObj [("mode", JStr "eco")]), w') /\
    map req_url (new_requests logged_in_client w') =
      [_WallboxURL; _LoginURL; _WallboxURL] /\
    status_calls (new_requests logged_in_client w') = 2%nat /\
    filter is_status (new_requests logged_in_client w') =
      map (fun i =>
             snd (attempt_request (picky_portal (JObj [("mode", JStr "eco")]))
                                  i "GW-A1" false logged_in_client))
          (seq 0 2) /\
    exists init tok,
      new_requests logged_in_client w'
        = (init ++ [status_request "GW-A1" tok])%list.
Proof.
  assert (Hd : (2 - 1 <= usual_depth)%nat) by (unfold usual_depth; lia).
  split; [lia|]. split; [lia|]. split; [exact Hd|].
  apply (getData_answered_at (picky_portal (JObj [("mode", JStr "eco")]))
                             usual_depth "GW-A1" false 20 2
                             (JObj [("mode", JStr "eco")]) logged_in_client);
    [lia | lia | exact Hd | exact picky_portal_refuses_stale
     | exact picky_portal_takes_fresh].
Defined.

(** C6, as stated, fails.  A charge power of [0] is a value, not [None],
    yet the body sent has no ["charge_power"] field. *)
Lemma set_charge_mode_zero_power_omitted :
  JNum 0 <> JNull /\
  map req_body
      (sent (snd (set_charge_mode (portal 0 JNull) (JStr "GW-A1") (JStr "fast")
                                  (JNum 0) false 20 logged_in_client)))
    = [Json (JObj [("sn", JStr "GW-A1"); ("type", JStr "fast")])].
Proof. split; [discriminate | vm_compute; reflexivity]. Qed.

Lemma set_charge_mode_body_witness :
  0 < 20 /\
  exists w' init tok data,
    set_charge_mode (portal 0 JNull) (JStr "GW-A1") (JStr "fast") (JNum 7400)
                    false 20 logged_in_client = (Ok tt, w') /\
    sent w' =
      (init ++ [mkRequest _SetChargeModeURL (token_headers tok) (Json data)
                          _RequestTimeout])%list /\
    getitem data "sn" = Ok (JStr "GW-A1") /\
    getitem data "type" = Ok (JStr "fast") /\
    getitem data "charge_power" = Ok (JNum 7400).
Proof.
  split; [lia|].
  apply (set_charge_mode_body (portal 0 JNull) (JStr "GW-A1") (JStr "fast")
                              (JNum 7400) false 20 logged_in_client).
  lia.
Defined.

Lemma stale_portal_commands_down h r :
  req_url r = _PowerControlURL \/ req_url r = _SetChargeModeURL ->
  stale_portal h r = Unreachable.
Proof.
  intros [E|E]; unfold stale_portal, is_status; rewrite E; reflexivity.
Defined.

Lemma commands_swallow_transport_failure_witness :
  (forall h r,
     req_url r = _PowerControlURL \/ req_url r = _SetChargeModeURL ->
     stale_portal h r = Unreachable) /\
  (exists w' l e,
     change_status stale_portal sample_str (JStr "GW-A1") (JNum 1) false 2
                   fresh_client = (Ok tt, w') /\
     logged w' = (logged fresh_client ++ l ++ [power_error e])%list /\
     (0 < 2 ->
      e = ConnectionError /\
      exists init tok,
        sent w' =
          (init ++ [power_request sample_str (JStr "GW-A1") (JNum 1) tok])%list)) /\
  (exists w' l e,
     set_charge_mode stale_portal (JStr "GW-A1") (JStr "fast") (JNum 7400) false 2
                     fresh_client = (Ok tt, w') /\
     logged w' = (logged fresh_client ++ l ++ [charge_error e])%list /\
     (0 < 2 ->
      e = ConnectionError /\
      exists init tok,
        sent w' =
          (init ++ [charge_request (JStr "GW-A1") (JStr "fast") (JNum 7400)
                                   tok])%list)).
Proof.
  split; [exact stale_portal_commands_down|].
  apply (commands_swallow_transport_failure stale_portal sample_str
           (JStr "GW-A1") (JNum 1) (JStr "GW-A1") (JStr "fast") (JNum 7400)
           false 2 fresh_client).
  exact stale_portal_commands_down.
Defined.

Lemma preamble_overwrites_token_witness :
  0 < 2 /\
  needs_login logged_in_client true = true /\
  _token (self (snd (change_status offline sample_str (JStr "GW-A1") (JNum 1)
                                   true 2 logged_in_client))) = JNull /\
  _token (self (snd (set_charge_mode offline (JStr "GW-A1") (JStr "fast")
                                     (JNum 7400) true 2 logged_in_client))) = JNull /\
  _token (self (snd (getData offline usual_depth "GW-A1" true 2
                             logged_in_client))) = JNull.
Proof.
  split; [lia|]. split; [reflexivity|].
  destruct (preamble_overwrites_token offline sample_str usual_depth "GW-A1"
              (JStr "GW-A1") (JNum 1) (JStr "GW-A1") (JStr "fast") (JNum 7400)
              true 2 logged_in_client)
    as (Hp & Hc & _ & _ & Hg); [lia|reflexivity|].
  split; [exact Hp|]. split; [exact Hc|].
  apply Hg. intros h r _. reflexivity.
Defined.

(** * Further properties *)

Section Further.

Variable net : network.
Variable py_str : json -> string.

(** ** The login body and the status body *)

Lemma length_append s t :
  String.length (s ++ t) = (String.length s + String.length t)%nat.
Proof. induction s as [|c s IH]; cbn; [reflexivity|rewrite IH; reflexivity]. Qed.

Lemma append_cancel_r s1 s2 t : (s1 ++ t = s2 ++ t)%string -> s1 = s2.
Proof.
  revert s2. induction s1 as [|c s1 IH]; intros [|c' s2] E; cbn in E.
  - reflexivity.
  - apply (f_equal String.length) in E. cbn in E. rewrite length_append in E. lia.
  - apply (f_equal String.length) in E. cbn in E. rewrite length_append in E. lia.
  - injection E as Ec E. rewrite (IH _ E), Ec. reflexivity.
Qed.

Lemma split_at_dquote s1 s2 t1 t2 :
  has_dquote s1 = false ->
  has_dquote s2 = false ->
  (s1 ++ String dquote t1 = s2 ++ String dquote t2)%string ->
  s1 = s2 /\ t1 = t2.
Proof.
  revert s2. induction s1 as [|c s1 IH]; intros [|c' s2] H1 H2 E;
    cbn in E, H1, H2.
  - injection E as E. auto.
  - injection E as Ec E. subst c'. rewrite Ascii.eqb_refl in H2. discriminate.
  - injection E as Ec E. subst c. rewrite Ascii.eqb_refl in H1. discriminate.
  - injection E as Ec E. subst c'.
    apply orb_false_iff in H1 as [_ H1]. apply orb_false_iff in H2 as [_ H2].
    destruct (IH s2 H1 H2 E) as [Es Et]. subst. auto.
Qed.

Ltac peel E :=
  repeat match type of E with
         | String ?c _ = String ?c _ => injection E as E
         end.

(** X3.  When neither user name holds a double quote, the login body tells the
    credentials apart: equal bodies come from equal names and passwords. *)
Theorem login_data_unambiguous u1 p1 u2 p2 :
  has_dquote u1 = false ->
  has_dquote u2 = false ->
  login_data u1 p1 = login_data u2 p2 ->
  u1 = u2 /\ p1 = p2.
Proof.
  intros H1 H2 E. unfold login_data, dq in E. cbn [append] in E. peel E.
  apply (split_at_dquote _ _ _ _ H1 H2) in E. destruct E as [Eu E].
  split; [exact Eu|]. peel E.
  exact (append_cancel_r _ _ _ E).
Qed.

(** X4.  The status body tells the serials apart. *)
Theorem status_data_injective sn1 sn2 :
  status_data sn1 = status_data sn2 -> sn1 = sn2.
Proof.
  intros E. unfold status_data, dq in E. cbn [append] in E. peel E.
  exact (append_cancel_r _ _ _ E).
Qed.

(** ** Logging in *)

Lemma assoc_set_other k k' v f :
  k <> k' -> assoc k (assoc_set k' v f) = assoc k f.
Proof.
  intros N. apply String.eqb_neq in N.
  induction f as [|[k0 v0] f IH]; cbn [assoc_set assoc].
  - rewrite N. reflexivity.
  - destruct (String.eqb k' k0) eqn:E; cbn [assoc].
    + apply String.eqb_eq in E. subst k0. rewrite N. reflexivity.
    + rewrite IH. reflexivity.
Qed.

(** X1.  [getLoginToken] never raises and never writes the client: whatever the
    portal answers, it sends the one login request and returns, [None]
    exactly when the login failed. *)
Theorem getLoginToken_frame userName password w :
  exists t w',
    getLoginToken net userName password w = (Ok t, w') /\
    self w' = self w /\
    sent w' = (sent w ++ [login_request userName password])%list /\
    (t = JNull <->
     login_fails (net (sent w) (login_request userName password)) = true).
Proof.
  rewrite getLoginToken_run. eexists _, _. split; [reflexivity|].
  repeat split.
  - intros E.
    destruct (login_fails (net (sent w) (login_request userName password)))
      eqn:F; [reflexivity|].
    destruct (login_succeeds_token _ F) as (f & api & Ht & _).
    rewrite Ht in E. discriminate.
  - apply login_fails_token.
Qed.

(** X2.  A good login answer: the token returned is the ["data"] object of the
    body with ["api"] set to the body's ["api"]; every other field of
    ["data"] is as it came. *)
Theorem getLoginToken_token userName password w r j d api :
  net (sent w) (login_request userName password) = Replied r ->
  http_error r = false ->
  body r = Some j ->
  getitem j "data" = Ok (JObj d) ->
  getitem j "api" = Ok api ->
  exists t,
    fst (getLoginToken net userName password w) = Ok t /\
    getitem t "api" = Ok api /\
    forall k, k <> "api" -> getitem t k = getitem (JObj d) k.
Proof.
  intros Hn Hh Hb Hd Ha. rewrite getLoginToken_run. cbn [fst].
  unfold login_token, login_outcome. rewrite Hn, Hh, Hb, Hd, Ha.
  cbn [setitem]. eexists. split; [reflexivity|]. split.
  - cbn [getitem]. rewrite assoc_set_same. reflexivity.
  - intros k N. cbn [getitem]. rewrite (assoc_set_other _ _ _ _ N).
    reflexivity.
Qed.

(** ** The status poll, attempt by attempt *)

Lemma acquired_credentials renewToken w :
  _username (self (acquired net renewToken w)) = _username (self w) /\
  _password (self (acquired net renewToken w)) = _password (self w).
Proof.
  unfold acquired.
  destruct (is_none (_token (self w)) || renewToken); split; reflexivity.
Qed.

Lemma login_calls_app h1 h2 :
  login_calls (h1 ++ h2) = (login_calls h1 + login_calls h2)%nat.
Proof. unfold login_calls. rewrite filter_app, length_app. reflexivity. Qed.

Lemma first_urls_counts l b :
  map req_url l = first_urls b ->
  status_calls l = 1%nat /\ (login_calls l <= 1)%nat /\ (List.length l <= 2)%nat.
Proof.
  intros E. split; [|split].
  - apply (status_calls_first_urls l b 0). rewrite E, app_nil_r. reflexivity.
  - destruct b; cbn [first_urls] in E.
    + destruct l as [|q1 [|q2 [|q3 l]]]; try discriminate.
      injection E as E1 E2.
      unfold login_calls, filter, is_login. rewrite E1, E2. cbn. lia.
    + destruct l as [|q1 [|q2 l]]; try discriminate.
      injection E as E1.
      unfold login_calls, filter, is_login. rewrite E1. cbn. lia.
  - rewrite <- (length_map req_url), E. destruct b; cbn; lia.
Qed.

Ltac conjs := repeat match goal with |- _ /\ _ => split end.

(** What a call of [getData] leaves behind, whatever the portal does. *)
Lemma getData_summary powerStationId :
  forall k depth renewToken maxTokenRetries w,
  Z.to_nat maxTokenRetries = k ->
  exists v w' new l,
    getData net depth powerStationId renewToken maxTokenRetries w = (Ok v, w') /\
    sent w' = (sent w ++ new)%list /\
    logged w' = (logged w ++ l)%list /\
    _username (self w') = _username (self w) /\
    _password (self w') = _password (self w) /\
    (status_calls new <= k)%nat /\
    (login_calls new <= k)%nat /\
    (List.length new <= 2 * k)%nat /\
    ((v <> JNull /\
      exists init,
        sent w' =
          (init ++ [status_request powerStationId (_token (self w'))])%list /\
        good_answer v
          (net init (status_request powerStationId (_token (self w'))))) \/
     (v = JNull /\ exists l' e, l = (l' ++ [fetch_error e])%list)).
Proof.
  intros k. induction k as [|k IH]; intros depth renewToken n w Hk.
  - rewrite getData_exhausted by lia.
    exists JNull, (add_log w [status_call_log; retries_log; fetch_error OutOfRetries]),
      [], [status_call_log; retries_log; fetch_error OutOfRetries].
    cbn [add_log sent logged self]. rewrite app_nil_r. conjs; try reflexivity.
    right. split; [reflexivity|].
    exists [status_call_log; retries_log], OutOfRetries. reflexivity.
  - rewrite getData_step by lia. cbv zeta.
    set (w1 := acquired net renewToken (add_log w [status_call_log])).
    set (req := status_request powerStationId (_token (self w1))).
    destruct (first_attempt_sent net renewToken w powerStationId [query_log])
      as (Hs & Hu & _ & _).
    fold w1 in Hs, Hu. fold req in Hs, Hu. cbn [add_log add_sent sent] in Hs.
    set (new1 := first_requests w renewToken req) in *.
    destruct (acquired_logged net renewToken (add_log w [status_call_log]))
      as [l1 Hl1]. fold w1 in Hl1. cbn [add_log logged] in Hl1.
    destruct (acquired_credentials renewToken (add_log w [status_call_log]))
      as [Hun1 Hpw1]. fold w1 in Hun1, Hpw1. cbn [add_log self] in Hun1, Hpw1.
    destruct (first_urls_counts _ _ Hu) as (C1 & C2 & C3).
    destruct (attempt_of (net (sent w1) req)) as [e| |d] eqn:Ha;
      [|destruct depth as [|depth]|].
    + exists JNull, (add_log (add_log (add_sent w1 req) [query_log]) [fetch_error e]),
        new1, ([status_call_log] ++ l1 ++ [query_log; fetch_error e])%list.
      cbn [add_log add_sent sent logged self].
      conjs; try reflexivity; try assumption; try lia.
      * rewrite Hl1, <- ?app_assoc. reflexivity.
      * right. split; [reflexivity|].
        exists ([status_call_log] ++ l1 ++ [query_log])%list, e.
        rewrite <- ?app_assoc. reflexivity.
    + exists JNull,
        (add_log (add_log (add_log (add_sent w1 req) [query_log]) [retry_log])
                 [fetch_error RecursionError]),
        new1,
        ([status_call_log] ++ l1 ++
         [query_log; retry_log; fetch_error RecursionError])%list.
      cbn [add_log add_sent sent logged self].
      conjs; try reflexivity; try assumption; try lia.
      * rewrite Hl1, <- ?app_assoc. reflexivity.
      * right. split; [reflexivity|].
        exists ([status_call_log] ++ l1 ++ [query_log; retry_log])%list,
          RecursionError.
        rewrite <- ?app_assoc. reflexivity.
    + destruct (IH depth true (n - 1)
                  (add_log (add_log (add_sent w1 req) [query_log]) [retry_log]))
        as (v & w' & new' & l' & E & Hs' & Hl' & Hun' & Hpw' & B1 & B2 & B3 & D);
        [lia|].
      cbn [add_log add_sent sent logged self] in Hs', Hl', Hun', Hpw'.
      rewrite E.
      exists v, w', (new1 ++ new')%list,
        ([status_call_log] ++ l1 ++ [query_log; retry_log] ++ l')%list.
      conjs; try reflexivity.
      * rewrite Hs', Hs, app_assoc. reflexivity.
      * rewrite Hl', Hl1, <- ?app_assoc. reflexivity.
      * congruence.
      * congruence.
      * rewrite status_calls_app. lia.
      * rewrite login_calls_app. lia.
      * rewrite length_app. lia.
      * destruct D as [D|(Hv & l'' & e & El)]; [left; exact D|].
        right. split; [exact Hv|].
        exists ([status_call_log] ++ l1 ++ [query_log; retry_log] ++ l'')%list, e.
        rewrite El, <- ?app_assoc. reflexivity.
    + apply attempt_answered in Ha.
      exists d, (add_log (add_sent w1 req) [query_log]), new1,
        ([status_call_log] ++ l1 ++ [query_log])%list.
      cbn [add_log add_sent sent logged self].
      conjs; try reflexivity; try assumption; try lia.
      * rewrite Hl1, <- ?app_assoc. reflexivity.
      * left. split.
        -- destruct Ha as (r & j & _ & _ & _ & _ & Hn). exact Hn.
        -- exists (sent w1). split; [reflexivity|exact Ha].
Qed.

(** X5.  [getData] never sends more status requests than its budget, nor more
    logins, whatever the portal answers; with no budget it sends nothing. *)
Theorem getData_bounded depth powerStationId renewToken maxTokenRetries w :
  let w' :=
    snd (getData net depth powerStationId renewToken maxTokenRetries w) in
  (status_calls (new_requests w w') <= Z.to_nat maxTokenRetries)%nat /\
  (login_calls (new_requests w w') <= Z.to_nat maxTokenRetries)%nat /\
  (List.length (new_requests w w') <= 2 * Z.to_nat maxTokenRetries)%nat.
Proof.
  destruct (getData_summary powerStationId _ depth renewToken maxTokenRetries w
              eq_refl)
    as (v & w' & new & l & E & Hs & _ & _ & _ & B1 & B2 & B3 & _).
  rewrite E. cbn [snd]. rewrite (new_requests_app _ _ _ Hs). auto.
Qed.

(** X6.  What [getData] returns is either the payload of a good answer to the
    last request it sent, a status request under the token the client now
    holds, or [None] with the error record as the last thing logged. *)
Theorem getData_payload_or_logged_None depth powerStationId renewToken
    maxTokenRetries w :
  exists v w' l,
    getData net depth powerStationId renewToken maxTokenRetries w
      = (Ok v, w') /\
    logged w' = (logged w ++ l)%list /\
    ((v <> JNull /\
      exists init,
        sent w' =
          (init ++ [status_request powerStationId (_token (self w'))])%list /\
        good_answer v
          (net init (status_request powerStationId (_token (self w'))))) \/
     (v = JNull /\ exists l' e, l = (l' ++ [fetch_error e])%list)).
Proof.
  destruct (getData_summary powerStationId _ depth renewToken maxTokenRetries w
              eq_refl)
    as (v & w' & new & l & E & _ & Hl & _ & _ & _ & _ & _ & D).
  exists v, w', l. auto.
Qed.

(** X7.  An exception on the first attempt ends the call: no connection, a body
    that is not JSON, or one without the expected keys gives [None] after
    that one status request, whatever budget is left. *)
Theorem getData_failure_not_retried depth powerStationId renewToken
    maxTokenRetries w e :
  0 < maxTokenRetries ->
  (forall h r, req_url r = _WallboxURL -> attempt_of (net h r) = Failed e) ->
  exists w' l,
    getData net depth powerStationId renewToken maxTokenRetries w
      = (Ok JNull, w') /\
    map req_url (new_requests w w') = first_urls (needs_login w renewToken) /\
    logged w' = (logged w ++ l ++ [fetch_error e])%list.
Proof.
  intros Hn Hfail. rewrite getData_step by assumption. cbv zeta.
  rewrite Hfail by reflexivity.
  destruct (first_attempt_sent net renewToken w powerStationId
              [query_log; fetch_error e]) as (Hs & Hu & _).
  destruct (acquired_logged net renewToken (add_log w [status_call_log]))
    as [l1 Hl1].
  eexists _, ([status_call_log] ++ l1 ++ [query_log])%list.
  split; [reflexivity|]. split.
  - erewrite new_requests_app; [exact Hu|].
    cbn [add_log add_sent sent] in *. exact Hs.
  - cbn [add_log add_sent logged] in *. rewrite Hl1, <- ?app_assoc.
    reflexivity.
Qed.

(** X8.  A client that holds a token and is not asked to renew it sends the
    status request under that token, without logging in; a good answer ends
    the call there, with the client as it was. *)
Theorem getData_reuses_token depth powerStationId maxTokenRetries w d :
  0 < maxTokenRetries ->
  _token (self w) <> JNull ->
  good_answer d
    (net (sent w) (status_request powerStationId (_token (self w)))) ->
  exists w',
    getData net depth powerStationId false maxTokenRetries w = (Ok d, w') /\
    sent w' =
      (sent w ++ [status_request powerStationId (_token (self w))])%list /\
    self w' = self w.
Proof.
  intros Hn Ht Hgood. rewrite getData_step by assumption. cbv zeta.
  assert (Ea : acquired net false (add_log w [status_call_log])
               = add_log w [status_call_log]).
  { unfold acquired. cbn [add_log self].
    destruct (_token (self w)); [congruence|reflexivity..]. }
  rewrite Ea. cbn [add_log add_sent sent self].
  apply attempt_answered in Hgood. rewrite Hgood.
  eexists. split; [reflexivity|]. split; reflexivity.
Qed.

(** ** The commands *)

Lemma command_world_sent renewToken w call send other err req w' :
  let w1 := acquired net renewToken (add_log w [call]) in
  let w2 := add_log (add_sent w1 req) [send] in
  w' = match net (sent w1) req with
       | Unreachable => add_log w2 [err]
       | Replied r => if status_code r =? 200 then w2 else add_log w2 [other]
       end ->
  self w' = self w1 /\
  sent w' =
    (sent w ++ (if needs_login w renewToken then [login_of w] else []) ++ [req])%list.
Proof.
  intros w1 w2 E.
  assert (H : self w' = self w1 /\ sent w' = (sent w1 ++ [req])%list).
  { rewrite E. destruct (net (sent w1) req) as [|r];
      [|destruct (status_code r =? 200)]; split; reflexivity. }
  destruct H as [H1 H2]. split; [exact H1|].
  rewrite H2. unfold w1. rewrite acquired_sent, <- app_assoc. reflexivity.
Qed.

(** X9.  With budget left, a command is sent once and only once, after at most
    one login, under the token the client ends up holding; the answer to it
    is not looked at beyond the log, and how much budget is left makes no
    difference. *)
Theorem commands_sent_once
    inverterSn status wallboxSn mode chargePower renewToken maxTokenRetries w :
  0 < maxTokenRetries ->
  (exists w',
     change_status net py_str inverterSn status renewToken maxTokenRetries w
       = (Ok tt, w') /\
     new_requests w w' =
       ((if needs_login w renewToken then [login_of w] else []) ++
        [power_request py_str inverterSn status (_token (self w'))])%list) /\
  (exists w',
     set_charge_mode net wallboxSn mode chargePower renewToken maxTokenRetries w
       = (Ok tt, w') /\
     new_requests w w' =
       ((if needs_login w renewToken then [login_of w] else []) ++
        [charge_request wallboxSn mode chargePower (_token (self w'))])%list) /\
  (forall m, 0 < m ->
     change_status net py_str inverterSn status renewToken m w =
     change_status net py_str inverterSn status renewToken maxTokenRetries w /\
     set_charge_mode net wallboxSn mode chargePower renewToken m w =
     set_charge_mode net wallboxSn mode chargePower renewToken maxTokenRetries w).
Proof.
  intros Hn. split; [|split].
  - rewrite change_status_run by assumption. cbv zeta.
    eexists. split; [reflexivity|].
    edestruct (command_world_sent renewToken w power_call_log power_send_log)
      as [Hself Hsent]; [reflexivity|].
    rewrite (new_requests_app _ _ _ Hsent), Hself. reflexivity.
  - rewrite set_charge_mode_run by assumption. cbv zeta.
    eexists. split; [reflexivity|].
    edestruct (command_world_sent renewToken w charge_call_log charge_send_log)
      as [Hself Hsent]; [reflexivity|].
    rewrite (new_requests_app _ _ _ Hsent), Hself. reflexivity.
  - intros m Hm.
    rewrite !change_status_run, !set_charge_mode_run by assumption.
    split; reflexivity.
Qed.

(** X10.  With no budget a command sends nothing and leaves the client alone; its
    log ends with the error record for [OutOfRetries]. *)
Theorem commands_no_budget
    inverterSn status wallboxSn mode chargePower renewToken maxTokenRetries w :
  maxTokenRetries <= 0 ->
  (exists w',
     change_status net py_str inverterSn status renewToken maxTokenRetries w
       = (Ok tt, w') /\
     sent w' = sent w /\ self w' = self w /\
     logged w' =
       (logged w ++ [power_call_log; retries_log; power_error OutOfRetries])%list) /\
  (exists w',
     set_charge_mode net wallboxSn mode chargePower renewToken maxTokenRetries w
       = (Ok tt, w') /\
     sent w' = sent w /\ self w' = self w /\
     logged w' =
       (logged w ++ [charge_call_log; retries_log; charge_error OutOfRetries])%list).
Proof.
  intros Hn.
  rewrite change_status_exhausted, set_charge_mode_exhausted by assumption.
  split; eexists; (split; [reflexivity|]); conjs; reflexivity.
Qed.

(** ** The client across calls *)

Lemma test_authentication_run w :
  test_authentication net w =
  (Ok (negb (is_none (login_token (net (sent w) (login_of w))))),
   mkWorld (mkSemsApi (_username (self w)) (_password (self w))
                      (login_token (net (sent w) (login_of w))))
           (sent w ++ [login_of w])
           (logged w ++ login_log (net (sent w) (login_of w)))).
Proof.
  unfold test_authentication. run. rewrite getLoginToken_run. reflexivity.
Qed.

(** X11.  No method ever changes the user name or the password of the client. *)
Theorem credentials_kept
    depth userName password powerStationId inverterSn status wallboxSn mode
    chargePower renewToken maxTokenRetries w :
  same_credentials w (snd (getLoginToken net userName password w)) /\
  same_credentials w (snd (test_authentication net w)) /\
  same_credentials w
    (snd (getData net depth powerStationId renewToken maxTokenRetries w)) /\
  same_credentials w
    (snd (change_status net py_str inverterSn status renewToken
                        maxTokenRetries w)) /\
  same_credentials w
    (snd (set_charge_mode net wallboxSn mode chargePower renewToken
                          maxTokenRetries w)).
Proof.
  unfold same_credentials. split; [|split; [|split; [|split]]].
  - rewrite getLoginToken_run. split; reflexivity.
  - rewrite test_authentication_run. split; reflexivity.
  - destruct (getData_summary powerStationId _ depth renewToken
                maxTokenRetries w eq_refl)
      as (v & w' & new & l & E & _ & _ & Hu & Hp & _).
    rewrite E. split; assumption.
  - destruct (Z_le_gt_dec maxTokenRetries 0) as [H|H].
    + rewrite change_status_exhausted by assumption. split; reflexivity.
    + rewrite change_status_run by lia. cbv zeta. cbn [snd].
      edestruct (command_world_sent renewToken w power_call_log power_send_log)
        as [Hself _]; [reflexivity|].
      rewrite Hself.
      apply (acquired_credentials renewToken (add_log w [power_call_log])).
  - destruct (Z_le_gt_dec maxTokenRetries 0) as [H|H].
    + rewrite set_charge_mode_exhausted by assumption. split; reflexivity.
    + rewrite set_charge_mode_run by lia. cbv zeta. cbn [snd].
      edestruct (command_world_sent renewToken w charge_call_log charge_send_log)
        as [Hself _]; [reflexivity|].
      rewrite Hself.
      apply (acquired_credentials renewToken (add_log w [charge_call_log])).
Qed.

Lemma getData_first_request_cached depth powerStationId maxTokenRetries w :
  0 < maxTokenRetries ->
  needs_login w false = false ->
  exists rest,
    sent (snd (getData net depth powerStationId false maxTokenRetries w)) =
      (sent w ++ status_request powerStationId (_token (self w)) :: rest)%list.
Proof.
  intros Hn Hneed. rewrite getData_step by assumption. cbv zeta.
  assert (Ea : acquired net false (add_log w [status_call_log])
               = add_log w [status_call_log]).
  { unfold acquired. unfold needs_login in Hneed. cbn [add_log self].
    rewrite Hneed. reflexivity. }
  rewrite Ea. cbn [add_log add_sent sent self].
  destruct (attempt_of _) as [e| |d]; try (exists []; reflexivity).
  destruct depth as [|depth]; [exists []; reflexivity|].
  match goal with |- context [getData net ?a ?b ?c ?d ?e] =>
    destruct (getData_summary b _ a c d e eq_refl)
      as (v & w' & new & l & E & Hs & _) end.
  rewrite E. exists new. cbn [snd]. rewrite Hs.
  cbn [add_log add_sent sent]. rewrite <- app_assoc. reflexivity.
Qed.

(** X12.  After [test_authentication] has answered [True], the calls that follow
    without [renewToken] do not log in again: [getData] opens with its status
    request, and a command is the only request sent, each under the token
    that the check stored. *)
Theorem token_reused_after_check
    depth powerStationId inverterSn status wallboxSn mode chargePower maxTokenRetries w :
  fst (test_authentication net w) = Ok true ->
  0 < maxTokenRetries ->
  let w1 := snd (test_authentication net w) in
  _token (self w1) = login_token (net (sent w) (login_of w)) /\
  (exists rest,
     sent (snd (getData net depth powerStationId false maxTokenRetries w1)) =
       (sent w1 ++ status_request powerStationId (_token (self w1)) :: rest)%list) /\
  new_requests w1
    (snd (change_status net py_str inverterSn status false maxTokenRetries w1))
    = [power_request py_str inverterSn status (_token (self w1))] /\
  new_requests w1
    (snd (set_charge_mode net wallboxSn mode chargePower false
                          maxTokenRetries w1))
    = [charge_request wallboxSn mode chargePower (_token (self w1))].
Proof.
  rewrite test_authentication_run. cbn [fst snd]. intros Hok Hn.
  set (w1 := mkWorld _ _ _).
  assert (Hneed : needs_login w1 false = false).
  { unfold needs_login, w1. cbn [self _token].
    injection Hok as Hok. apply negb_true_iff in Hok. rewrite Hok.
    reflexivity. }
  split; [reflexivity|]. split; [|split].
  - apply getData_first_request_cached; assumption.
  - rewrite change_status_run by assumption. cbv zeta. cbn [snd].
    edestruct (command_world_sent false w1 power_call_log power_send_log)
      as [Hself Hsent]; [reflexivity|].
    rewrite Hneed in Hsent. rewrite (new_requests_app _ _ _ Hsent).
    cbn [app]. unfold acquired in *. unfold needs_login in Hneed.
    cbn [add_log self] in *. rewrite Hneed. reflexivity.
  - rewrite set_charge_mode_run by assumption. cbv zeta. cbn [snd].
    edestruct (command_world_sent false w1 charge_call_log charge_send_log)
      as [Hself Hsent]; [reflexivity|].
    rewrite Hneed in Hsent. rewrite (new_requests_app _ _ _ Hsent).
    cbn [app]. unfold acquired in *. unfold needs_login in Hneed.
    cbn [add_log self] in *. rewrite Hneed. reflexivity.
Qed.

(** X13.  A client fresh from [__init__] logs in first, with the credentials it
    was built with, whichever call comes first and whatever [renewToken]
    says. *)
Theorem fresh_client_logs_in_first
    depth username password history log
    powerStationId inverterSn status wallboxSn mode chargePower renewToken
    maxTokenRetries :
  0 < maxTokenRetries ->
  let w := mkWorld (__init__ username password) history log in
  (exists rest,
     new_requests w
       (snd (getData net depth powerStationId renewToken maxTokenRetries w))
       = login_request username password :: rest) /\
  (exists tok,
     new_requests w
       (snd (change_status net py_str inverterSn status renewToken
                           maxTokenRetries w))
       = [login_request username password;
          power_request py_str inverterSn status tok]) /\
  (exists tok,
     new_requests w
       (snd (set_charge_mode net wallboxSn mode chargePower renewToken
                             maxTokenRetries w))
       = [login_request username password;
          charge_request wallboxSn mode chargePower tok]).
Proof.
  intros Hn w.
  assert (Hneed : needs_login w renewToken = true) by reflexivity.
  split; [|split].
  - destruct (getData_first_requests net depth powerStationId renewToken
                maxTokenRetries w Hn Hneed) as (v & w' & rest & E & Hs).
    rewrite E. cbn [snd]. rewrite (new_requests_app _ _ _ Hs).
    eexists. reflexivity.
  - rewrite change_status_run by assumption. cbv zeta. cbn [snd].
    edestruct (command_world_sent renewToken w power_call_log power_send_log)
      as [Hself Hsent]; [reflexivity|].
    rewrite Hneed in Hsent. rewrite (new_requests_app _ _ _ Hsent).
    eexists. reflexivity.
  - rewrite set_charge_mode_run by assumption. cbv zeta. cbn [snd].
    edestruct (command_world_sent renewToken w charge_call_log charge_send_log)
      as [Hself Hsent]; [reflexivity|].
    rewrite Hneed in Hsent. rewrite (new_requests_app _ _ _ Hsent).
    eexists. reflexivity.
Qed.

End Further.

(** * Concrete runs, continued *)

(** A double quote in the user name is not escaped, so two different pairs
    of credentials can give the same login body. *)
Example login_data_collision :
  login_data ("x" ++ dq ++ "," ++ dq ++ "pwd" ++ dq ++ ":" ++ dq ++ "y") "z"
  = login_data "x" ("y" ++ dq ++ "," ++ dq ++ "pwd" ++ dq ++ ":" ++ dq ++ "z").
Proof. reflexivity. Qed.

Lemma login_data_unambiguous_witness :
  has_dquote "user@example.org" = false /\
  has_dquote "user@example.org" = false /\
  login_data "user@example.org" "secret" = login_data "user@example.org" "secret" /\
  ("user@example.org" = "user@example.org" /\ "secret" = "secret").
Proof.
  split; [reflexivity|]. split; [reflexivity|]. split; [reflexivity|].
  apply (login_data_unambiguous "user@example.org" "secret"
                                "user@example.org" "secret"); reflexivity.
Defined.

Lemma status_data_injective_witness :
  status_data "GW-A1" = status_data "GW-A1" /\ "GW-A1" = "GW-A1".
Proof.
  split; [reflexivity|].
  apply (status_data_injective "GW-A1" "GW-A1"). reflexivity.
Defined.

Lemma getLoginToken_token_witness :
  portal 0 JNull (sent fresh_client)
         (login_request "user@example.org" "secret") = Replied login_reply /\
  http_error login_reply = false /\
  exists t,
    fst (getLoginToken (portal 0 JNull) "user@example.org" "secret" fresh_client)
      = Ok t /\
    getitem t "api" = Ok (JStr "https://eu.semsportal.com/api/") /\
    forall k, k <> "api" -> getitem t k = getitem sample_token k.
Proof.
  split; [reflexivity|]. split; [reflexivity|].
  apply (getLoginToken_token (portal 0 JNull) "user@example.org" "secret"
           fresh_client login_reply
           (JObj [ ("data", sample_token);
                   ("api", JStr "https://eu.semsportal.com/api/") ]));
    reflexivity.
Defined.

Lemma getData_failure_not_retried_witness :
  0 < 20 /\
  (forall h r, req_url r = _WallboxURL ->
               attempt_of (offline h r) = Failed ConnectionError) /\
  exists w' l,
    getData offline usual_depth "GW-A1" false 20 logged_in_client
      = (Ok JNull, w') /\
    map req_url (new_requests logged_in_client w') = [_WallboxURL] /\
    logged w' =
      (logged logged_in_client ++ l ++ [fetch_error ConnectionError])%list.
Proof.
  split; [lia|]. split; [intros h r _; reflexivity|].
  apply (getData_failure_not_retried offline usual_depth "GW-A1" false 20
                                     logged_in_client ConnectionError);
    [lia | intros h r _; reflexivity].
Defined.

Lemma portal_answers_at_once d tok :
  d <> JNull ->
  good_answer d (portal 0 d (sent logged_in_client) (status_request "GW-A1" tok)).
Proof.
  intros Hd. exists (status_reply d), (JObj [("msg", JStr "success"); ("data", d)]).
  repeat split. exact Hd.
Defined.

Lemma getData_reuses_token_witness :
  0 < 20 /\
  _token (self logged_in_client) <> JNull /\
  exists w',
    getData (portal 0 (JObj [("power", JNum 0)])) usual_depth "GW-A1" false 20
            logged_in_client = (Ok (JObj [("power", JNum 0)]), w') /\
    sent w' =
      (sent logged_in_client ++
       [status_request "GW-A1" (_token (self logged_in_client))])%list /\
    self w' = self logged_in_client.
Proof.
  split; [lia|]. split; [discriminate|].
  apply (getData_reuses_token (portal 0 (JObj [("power", JNum 0)])) usual_depth
                              "GW-A1" 20 logged_in_client);
    [lia | discriminate | apply portal_answers_at_once; discriminate].
Defined.

Lemma commands_sent_once_witness :
  0 < 2 /\
  new_requests fresh_client
    (snd (change_status (portal 0 JNull) sample_str (JStr "GW-A1") (JNum 1)
                        false 2 fresh_client))
  = [login_of fresh_client;
     power_request sample_str (JStr "GW-A1") (JNum 1)
       (login_token (portal 0 JNull (sent fresh_client) (login_of fresh_client)))].
Proof.
  split; [lia|].
  destruct (commands_sent_once (portal 0 JNull) sample_str
              (JStr "GW-A1") (JNum 1) (JStr "GW-A1") (JStr "fast") (JNum 7400)
              false 2 fresh_client) as ((w' & E & Hnew) & _); [lia|].
  rewrite E. cbn [snd]. rewrite Hnew.
  replace (_token (self w'))
    with (_token (self (snd
            (change_status (portal 0 JNull) sample_str (JStr "GW-A1") (JNum 1)
                           false 2 fresh_client))))
    by (rewrite E; reflexivity).
  vm_compute. reflexivity.
Defined.

Lemma commands_no_budget_witness :
  0 <= 0 /\
  sent (snd (change_status offline sample_str (JStr "GW-A1") (JNum 1) false 0
                           logged_in_client)) = sent logged_in_client /\
  sent (snd (set_charge_mode offline (JStr "GW-A1") (JStr "fast") (JNum 7400)
                             false 0 logged_in_client)) = sent logged_in_client.
Proof.
  split; [lia|].
  destruct (commands_no_budget offline sample_str
              (JStr "GW-A1") (JNum 1) (JStr "GW-A1") (JStr "fast") (JNum 7400)
              false 0 logged_in_client)
    as ((w1 & E1 & Hs1 & _) & (w2 & E2 & Hs2 & _)); [lia|].
  rewrite E1, E2. cbn [snd]. split; assumption.
Defined.

Lemma token_reused_after_check_witness :
  fst (test_authentication (portal 0 JNull) fresh_client) = Ok true /\
  0 < 20 /\
  new_requests (snd (test_authentication (portal 0 JNull) fresh_client))
    (snd (change_status (portal 0 JNull) sample_str (JStr "GW-A1") (JNum 1)
            false 20 (snd (test_authentication (portal 0 JNull) fresh_client))))
  = [power_request sample_str (JStr "GW-A1") (JNum 1)
       (_token (self (snd (test_authentication (portal 0 JNull) fresh_client))))].
Proof.
  split; [vm_compute; reflexivity|]. split; [lia|].
  apply (token_reused_after_check (portal 0 JNull) sample_str usual_depth
           "GW-A1"
           (JStr "GW-A1") (JNum 1) (JStr "GW-A1") (JStr "fast") (JNum 7400)
           20 fresh_client);
    [vm_compute; reflexivity | lia].
Defined.

Lemma fresh_client_logs_in_first_witness :
  0 < 20 /\
  exists rest,
    new_requests (mkWorld (__init__ "user@example.org" "secret") [] [])
      (snd (getData offline usual_depth "GW-A1" false 20
                    (mkWorld (__init__ "user@example.org" "secret") [] [])))
    = login_request "user@example.org" "secret" :: rest.
Proof.
  split; [lia|].
  apply (fresh_client_logs_in_first offline sample_str usual_depth
           "user@example.org" "secret" [] []
           "GW-A1" (JStr "GW-A1") (JNum 1) (JStr "GW-A1") (JStr "fast")
           (JNum 7400) false 20).
  lia.
Defined.
